(** * ads2coa: the NSF COA generator, embedded and verified

    The development follows [ads2coa.py]: the module constants, [copy_range],
    and the methods of class [COA] ([_check_is_template], [_permute_date],
    [add_author_affiliations], [__init__]).  The part of openpyxl the script
    calls (cells, worksheets, tables, row insertion, range strings) is modelled
    in [Module Openpyxl] after the library's documented behaviour. *)

From Stdlib Require Import ZArith String Ascii List Lia.
From Stdlib Require Import DecimalString DecimalPos.
From stdpp Require Import base option list gmap strings fin_maps.

Local Open Scope string_scope.
Local Open Scope Z_scope.

(* stdpp's solvers clear hypotheses that a substitution has already removed. *)
Set Warnings "-clear-no-such-hyp".

(* ===================================================================== *)
(** ** Python values the script manipulates *)
(* ===================================================================== *)

Module Py.

(** The exceptions the script and the library raise. *)
Inductive exn : Type :=
| ValueError (msg : string)
| KeyError (key : string)
| IndexError (msg : string)
| TypeError (msg : string).

(** The objects a spreadsheet cell holds. *)
Inductive obj : Type :=
| PyNone
| PyStr (s : string)
| PyInt (n : Z).

(** [a == b] on these objects. *)
Definition obj_eqb (a b : obj) : bool :=
  match a, b with
  | PyNone, PyNone => true
  | PyStr s, PyStr t => String.eqb s t
  | PyInt n, PyInt m => Z.eqb n m
  | _, _ => false
  end.

(** Outcome of an expression that may raise. *)
Inductive result (A : Type) : Type :=
| Ok (a : A)
| Raise (e : exn).
Arguments Ok {A} a.
Arguments Raise {A} e.

(** [s.split(sep)] for a one-character separator: the pieces between the
    separators, empty pieces included; never the empty list. *)
Fixpoint split (sep : ascii) (s : string) : list string :=
  match s with
  | EmptyString => [EmptyString]
  | String c s' =>
      if Ascii.eqb c sep then EmptyString :: split sep s'
      else match split sep s' with
           | [] => [String c EmptyString]
           | w :: ws => String c w :: ws
           end
  end.

(** [sep.join(parts)]. *)
Fixpoint join (sep : ascii) (parts : list string) : string :=
  match parts with
  | [] => EmptyString
  | [w] => w
  | w :: rest => w +:+ String sep (join sep rest)
  end.

(** [s.count(sep)]. *)
Fixpoint count (sep : ascii) (s : string) : nat :=
  match s with
  | EmptyString => O
  | String c s' => (if Ascii.eqb c sep then 1 else 0) + count sep s'
  end.

(** A string in which the separator does not occur. *)
Definition sep_free (sep : ascii) (w : string) : Prop := count sep w = 0%nat.

(** [str(n)] for an integer. *)
Definition str (n : Z) : string := NilEmpty.string_of_int (Z.to_int n).

(** [len(l)] as a Python integer. *)
Definition len {A} (l : list A) : Z := Z.of_nat (length l).

(** [c.lower()] on the ASCII letters. *)
Definition lower_ascii (c : ascii) : ascii :=
  let n := nat_of_ascii c in
  if (65 <=? n)%nat && (n <=? 90)%nat then ascii_of_nat (n + 32) else c.

Fixpoint lower (s : string) : string :=
  match s with
  | EmptyString => EmptyString
  | String c s' => String (lower_ascii c) (lower s')
  end.

End Py.
Import Py.

(* ===================================================================== *)
(** ** COA._permute_date *)
(* ===================================================================== *)

Definition slash : ascii := "/"%char.

(** [date = date_str.split("/")], then
    [f"{date[1]}/{date[2]}/{date[0]}"]; a subscript past the end of the list
    raises IndexError. *)
Definition _permute_date (date_str : string) : result string :=
  let date := split slash date_str in
  match date !! 1%nat with
  | None => Raise (IndexError "list index out of range")
  | Some d1 =>
      match date !! 2%nat with
      | None => Raise (IndexError "list index out of range")
      | Some d2 =>
          match date !! 0%nat with
          | None => Raise (IndexError "list index out of range")
          | Some d0 => Ok (d1 +:+ "/" +:+ d2 +:+ "/" +:+ d0)
          end
      end
  end.

(** The inverse transform as the specification words it: the last
    "/"-separated component is moved back to the front.  This definition follows
    the specification, not the source; it is only compared with
    [_permute_date]. *)
Definition inverse_transform (s : string) : string :=
  match reverse (split slash s) with
  | [] => s
  | last :: rinit => join slash (last :: reverse rinit)
  end.


(* ===================================================================== *)
(** ** The part of openpyxl the script uses *)
(* ===================================================================== *)

Module Openpyxl.

(** A cell: its value and the style attributes the library exposes.  The
    style objects are opaque to the script, which only copies them; they
    are represented by descriptors. *)
Record Cell : Type := mkCell {
  value : obj;
  font : string;
  alignment : string;
  border : string;
  fill : string;
  number_format : string;
  protection : string
}.

(** The cell the library creates on first access to a free coordinate. *)
Definition blank : Cell :=
  {| value := PyNone; font := ""; alignment := ""; border := "";
     fill := ""; number_format := "General"; protection := "" |}.

Record Table : Type := mkTable {
  displayName : string;
  name : string;
  ref : string
}.

(** A worksheet: the dictionary [_cells], keyed by (row, column), and the
    dictionary [tables], keyed by table name. *)
Record Worksheet : Type := mkWorksheet {
  title : string;
  _cells : gmap (Z * Z) Cell;
  tables : gmap string Table
}.

Record Workbook : Type := mkWorkbook {
  worksheets : list Worksheet;
  defined_names : list string
}.

Definition sheetnames (wb : Workbook) : list string :=
  map title (worksheets wb).

(** [wb[key]]: the worksheet of that title. *)
Definition wb_getitem (wb : Workbook) (key : string) : result Worksheet :=
  match List.find (fun ws => String.eqb (title ws) key) (worksheets wb) with
  | Some ws => Ok ws
  | None => Raise (KeyError key)
  end.

(** Statements that act on one worksheet: they may raise, and what they
    changed before raising stays changed. *)
Definition W (A : Type) : Type := Worksheet -> result A * Worksheet.

Definition ret {A} (a : A) : W A := fun ws => (Ok a, ws).
Definition raise {A} (e : exn) : W A := fun ws => (Raise e, ws).
Definition bind {A B} (m : W A) (k : A -> W B) : W B :=
  fun ws =>
    match m ws with
    | (Ok a, ws') => k a ws'
    | (Raise e, ws') => (Raise e, ws')
    end.
Definition lift {A} (r : result A) : W A := fun ws => (r, ws).

(** [for x in l: body x]. *)
Fixpoint for_ {A} (l : list A) (body : A -> W unit) : W unit :=
  match l with
  | [] => ret tt
  | x :: l' => bind (body x) (fun _ => for_ l' body)
  end.

(** [range(n)]. *)
Definition range (n : Z) : list Z := seqZ 0 n.

(** What the worksheet shows at a coordinate.  The library materialises a
    blank cell on the first access to a free coordinate; a free coordinate
    and a blank cell are not told apart here. *)
Definition cell_at (ws : Worksheet) (row column : Z) : Cell :=
  default blank (_cells ws !! (row, column)).

(** [ws._get_cell(row, column)], which [ws[key]] calls for a one-cell key:
    rows start at 1.  The library also refuses rows above 1048576, with the
    same message; that height limit is not modelled, and the statements
    below that depend on it name it as a hypothesis. *)
Definition _get_cell (row column : Z) : W Cell :=
  fun ws =>
    if row <? 1
    then (Raise (ValueError
                   ("Row numbers must be between 1 and 1048576. "
                    +:+ "Row number supplied was " +:+ str row)), ws)
    else (Ok (cell_at ws row column), ws).

(** [ws.cell(row=row, column=column)], which [Cell.offset] calls: its own
    test on row and column, then [_get_cell]. *)
Definition ws_cell (row column : Z) : W Cell :=
  fun ws =>
    if (row <? 1) || (column <? 1)
    then (Raise (ValueError "Row or column values must be at least 1"), ws)
    else (Ok (cell_at ws row column), ws).

(** Assignment to the attributes of the cell at a coordinate. *)
Definition put_cell (row column : Z) (c : Cell) : W unit :=
  fun ws => (Ok tt, {| title := title ws;
                       _cells := <[(row, column) := c]> (_cells ws);
                       tables := tables ws |}).

Definition set_value (v : obj) (c : Cell) : Cell :=
  {| value := v; font := font c; alignment := alignment c;
     border := border c; fill := fill c;
     number_format := number_format c; protection := protection c |}.

(** *** Coordinates and ranges as strings *)

Definition is_letter (c : ascii) : bool :=
  let n := nat_of_ascii c in
  ((65 <=? n)%nat && (n <=? 90)%nat) || ((97 <=? n)%nat && (n <=? 122)%nat).

Definition is_digit (c : ascii) : bool :=
  let n := nat_of_ascii c in (48 <=? n)%nat && (n <=? 57)%nat.

(** The longest prefix of [s] whose characters satisfy [p], and the rest. *)
Fixpoint span (p : ascii -> bool) (s : string) : string * string :=
  match s with
  | EmptyString => (EmptyString, EmptyString)
  | String c s' =>
      if p c then let '(a, b) := span p s' in (String c a, b)
      else (EmptyString, s)
  end.

(** [column_index_from_string]: A = 1, ..., Z = 26, AA = 27, ... *)
Definition letter_value (c : ascii) : Z :=
  let n := Z.of_nat (nat_of_ascii c) in
  if 97 <=? n then n - 96 else n - 64.

Fixpoint column_index_from (acc : Z) (s : string) : Z :=
  match s with
  | EmptyString => acc
  | String c s' => column_index_from (26 * acc + letter_value c) s'
  end.

Definition column_index_from_string (s : string) : Z :=
  column_index_from 0 s.

(** [int(s)] for a string of decimal digits. *)
Definition int_of_digits (s : string) : option Z :=
  match NilEmpty.uint_of_string s with
  | Some d => Some (Z.of_uint d)
  | None => None
  end.

Definition skip_dollar (s : string) : string :=
  match s with
  | String "$" s' => s'
  | _ => s
  end.

(** The end of the string as [$] takes it in the library's patterns: the end
    proper, or one last line feed. *)
Definition at_end (s : string) : bool :=
  match s with
  | EmptyString => true
  | String c EmptyString => Ascii.eqb c "010"%char
  | String _ (String _ _) => false
  end.

(** One half of the pattern ABSOLUTE_RE at the head of [s]: an optional [$],
    at most three letters, an optional [$], digits; the letters and the
    digits may each be missing.  Gives the letters, the digits and what
    follows. *)
Definition half (s : string) : option (string * string * string) :=
  let '(ls, s1) := span is_letter (skip_dollar s) in
  let '(ds, s2) := span is_digit (skip_dollar s1) in
  if (String.length ls <=? 3)%nat then Some (ls, ds, s2) else None.

(** A match of ABSOLUTE_RE: one half, or two halves with a colon between
    them. *)
Definition absolute_re (s : string)
  : option (string * string * option (string * string)) :=
  match half s with
  | Some (c1, r1, rest) =>
      if at_end rest then Some (c1, r1, None)
      else match rest with
           | String ":" rest' =>
               match half rest' with
               | Some (c2, r2, rest'') =>
                   if at_end rest'' then Some (c1, r1, Some (c2, r2)) else None
               | None => None
               end
           | _ => None
           end
  | None => None
  end.

(** The strings the library's [range_boundaries] lets through: they match
    ABSOLUTE_RE and, when there is a colon, both halves are whole corners, or
    both are columns only, or both are rows only.  A boundary that is not
    written comes out as None. *)
Definition range_accepted (s : string) : bool :=
  let given (x : string) := negb (String.eqb x "") in
  match absolute_re s with
  | Some (_, _, None) => true
  | Some (c1, r1, Some (c2, r2)) =>
      (given c1 && given c2 && given r1 && given r2)
      || (given c1 && given c2 && negb (given r1 || given r2))
      || (given r1 && given r2 && negb (given c1 || given c2))
  | None => false
  end.

(** One corner of a range at the head of [s]: an optional [$], one to
    three letters, an optional [$], digits.  Gives column, row and what
    follows. *)
Definition corner (s : string) : option (Z * Z * string) :=
  let '(ls, s1) := span is_letter (skip_dollar s) in
  let '(ds, s2) := span is_digit (skip_dollar s1) in
  if (1 <=? String.length ls)%nat && (String.length ls <=? 3)%nat
     && (1 <=? String.length ds)%nat
  then match int_of_digits ds with
       | Some r => Some (column_index_from_string ls, r, s2)
       | None => None
       end
  else None.

(** [range_boundaries], where it gives all four of (min_col, min_row,
    max_col, max_row): on ["A1"] and ["A1:B2"].  Where the library returns
    None for one of them (whole rows, whole columns, the empty string) or
    raises, this is None; [rows_from_range] tells the two apart. *)
Definition range_boundaries (range_string : string) : option (Z * Z * Z * Z) :=
  match corner range_string with
  | Some (c1, r1, rest) =>
      if at_end rest then Some (c1, r1, c1, r1)
      else match rest with
           | String ":" rest' =>
               match corner rest' with
               | Some (c2, r2, rest'') =>
                   if at_end rest'' then Some (c1, r1, c2, r2) else None
               | None => None
               end
           | _ => None
           end
  | None => None
  end.

(** [rows_from_range]: the coordinates of the range, row by row.  The
    library yields them as strings which [ws[...]] parses back; here they
    stay (row, column) pairs.  A string that [range_boundaries] refuses
    raises its ValueError; one it lets through with a boundary missing makes
    [max_row + 1] or [max_col + 1] fail on None. *)
Definition rows_from_range (range_string : string) : result (list (list (Z * Z))) :=
  match range_boundaries range_string with
  | Some (min_col, min_row, max_col, max_row) =>
      Ok (map (fun row => map (fun col => (row, col))
                             (seqZ min_col (max_col - min_col + 1)))
              (seqZ min_row (max_row - min_row + 1)))
  | None =>
      if range_accepted range_string
      then Raise (TypeError
                    "unsupported operand type(s) for +: 'NoneType' and 'int'")
      else Raise (ValueError
                    (range_string +:+ " is not a valid coordinate or range"))
  end.

(** The coordinate a one-cell key such as ["B52"] names.  The script builds
    no other keys; keys that name whole rows, columns or ranges are outside
    this model and read as malformed. *)
Definition coordinate (key : string) : result (Z * Z) :=
  match corner key with
  | Some (c, r, rest) =>
      if at_end rest then Ok (r, c)
      else Raise (ValueError (key +:+ " is not a valid coordinate or range"))
  | None => Raise (ValueError (key +:+ " is not a valid coordinate or range"))
  end.

(** [ws[key]] for a one-cell key. *)
Definition ws_getitem (key : string) : W Cell :=
  bind (lift (coordinate key)) (fun rc => _get_cell rc.1 rc.2).

(** [ws[key] = v], i.e. [ws[key].value = v]. *)
Definition ws_setitem (key : string) (v : obj) : W unit :=
  bind (lift (coordinate key)) (fun rc =>
  bind (_get_cell rc.1 rc.2) (fun c =>
  put_cell rc.1 rc.2 (set_value v c))).

(** *** Inserting rows *)

Definition shift_row (amount : Z) (k : Z * Z) : Z * Z := (k.1 + amount, k.2).

(** [ws.max_row] and [ws.max_column]: the largest row and the largest column
    that has a cell, 1 on a sheet without cells. *)
Definition max_row (m : gmap (Z * Z) Cell) : Z :=
  match map_to_list m with
  | [] => 1
  | kv :: l => foldr (fun kv acc => Z.max kv.1.1 acc) kv.1.1 l
  end.

Definition max_column (m : gmap (Z * Z) Cell) : Z :=
  match map_to_list m with
  | [] => 1
  | kv :: l => foldr (fun kv acc => Z.max kv.1.2 acc) kv.1.2 l
  end.

(** The coordinates [ws.iter_rows(min_row=idx)] visits, each through
    [ws.cell]: rows [idx] (1 when [idx] is 0) to [max_row], columns 1 to
    [max_column]. *)
Definition rows_visited (idx : Z) (m : gmap (Z * Z) Cell) : list (Z * Z) :=
  let min_row := if idx =? 0 then 1 else idx in
  flat_map (fun row => map (fun col => (row, col)) (seqZ 1 (max_column m)))
           (seqZ min_row (max_row m - min_row + 1)).

(** Visiting a free coordinate creates a blank cell there. *)
Definition materialise (ks : list (Z * Z)) (m : gmap (Z * Z) Cell)
  : gmap (Z * Z) Cell :=
  foldr (fun k acc => match acc !! k with
                      | Some _ => acc
                      | None => <[k := blank]> acc
                      end) m ks.

(** [ws._move_cells(min_row=idx, offset=amount)] once the cells are there:
    every cell of a row at or below [idx] is filed [amount] rows further
    down and deleted where it was, from the last row upwards when [amount]
    is positive and from the first row downwards otherwise.  So the other
    cells stay, a moved cell replaces what it lands on, and with an [amount]
    of 0 every cell at or below [idx] is filed onto itself and then
    deleted. *)
Definition move_rows (idx amount : Z) (m : gmap (Z * Z) Cell) : gmap (Z * Z) Cell :=
  if amount =? 0 then filter (fun kv => kv.1.1 < idx) m
  else kmap (shift_row amount) (filter (fun kv => idx <= kv.1.1) m)
       ∪ filter (fun kv => kv.1.1 < idx) m.

(** [ws.insert_rows(idx, amount)]: "insert row or rows before row==idx".
    The library first visits the rows from [idx] on, which raises when one
    of them is not on the sheet, and then moves the cells.  (Cells are taken
    to sit at rows from 1 on, as on every sheet read from a file.) *)
Definition insert_rows (idx amount : Z) : W unit :=
  fun ws =>
    let visited := rows_visited idx (_cells ws) in
    if existsb (fun k => k.1 <? 1) visited
    then (Raise (ValueError "Row or column values must be at least 1"), ws)
    else (Ok tt, {| title := title ws;
                    _cells := move_rows idx amount
                                (materialise visited (_cells ws));
                    tables := tables ws |}).

(** *** Tables *)

(** [ws.tables[key]]. *)
Definition tables_getitem (ws : Worksheet) (key : string) : result Table :=
  match tables ws !! key with
  | Some t => Ok t
  | None => Raise (KeyError key)
  end.

(** [del ws.tables[key]]. *)
Definition tables_delitem (key : string) : W unit :=
  fun ws =>
    match tables ws !! key with
    | Some _ => (Ok tt, {| title := title ws; _cells := _cells ws;
                           tables := delete key (tables ws) |})
    | None => (Raise (KeyError key), ws)
    end.

Definition table_names (ws : Worksheet) : list string :=
  map fst (map_to_list (tables ws)).

(** [wb._duplicate_name(name)], seen from the worksheet being edited:
    [elsewhere] are the table names of the other worksheets and
    [defined] the defined names of the workbook.  Table names compare
    without regard to case. *)
Definition _duplicate_name (elsewhere defined : list string)
    (ws : Worksheet) (name : string) : bool :=
  existsb (fun t => String.eqb (lower name) (lower t))
          (table_names ws ++ elsewhere)
  || existsb (String.eqb (lower name)) defined.

(** [ws.add_table(table)]. *)
Definition add_table (elsewhere defined : list string) (table : Table) : W unit :=
  fun ws =>
    if _duplicate_name elsewhere defined ws (name table)
    then (Raise (ValueError ("Table with name " +:+ name table
                             +:+ " already exists")), ws)
    else (Ok tt, {| title := title ws; _cells := _cells ws;
                    tables := <[name table := table]> (tables ws) |}).

End Openpyxl.
Import Openpyxl.

Notation "'let*' x := m 'in' k" := (bind m (fun x => k))
  (at level 10, x name, m at level 100, k at level 200, only parsing).
Notation "m >> k" := (bind m (fun _ => k))
  (at level 90, right associativity, only parsing).

(* ===================================================================== *)
(** ** ads2coa.py *)
(* ===================================================================== *)

Definition TABLE4_START_ROW : Z := 52.
Definition TABLE4_TEMPLATE_PERSON : string := "Alphaman, Lin".
Definition NUMBER_OF_EXISTING_ROWS_IN_TABLE4 : Z := 5.
Definition TEMPLATE_SHEET : string := "NSF COA Template".

(** The body of the inner loop of [copy_range]: [sheet[cell]] is read,
    [dst_cell] is the cell [offset] rows below it, [sheet[cell]] is read again
    as [src_cell], and value, font, alignment, border, fill and number format
    are assigned from it. *)
Definition copy_cell (offset : Z) (cell : Z * Z) : W unit :=
  let* _ := _get_cell cell.1 cell.2 in
  let* dst_cell := ws_cell (cell.1 + offset) cell.2 in
  let* src_cell := _get_cell cell.1 cell.2 in
  put_cell (cell.1 + offset) cell.2
    {| value := value src_cell;
       font := font src_cell;
       alignment := alignment src_cell;
       border := border src_cell;
       fill := fill src_cell;
       number_format := number_format src_cell;
       protection := protection dst_cell |}.

(** What [copy_cell] leaves in the destination cell: everything of the source
    cell but its protection, which the loop does not assign. *)
Definition copied (src dst : Cell) : Cell :=
  {| value := value src;
     font := font src;
     alignment := alignment src;
     border := border src;
     fill := fill src;
     number_format := number_format src;
     protection := protection dst |}.

(** Two worksheets that differ at most in their cells. *)
Definition same_frame (ws ws' : Worksheet) : Prop :=
  title ws' = title ws /\ tables ws' = tables ws.

Definition copy_range (range_str : string) (offset : Z) : W unit :=
  let* rows := lift (rows_from_range range_str) in
  for_ rows (fun row => for_ row (fun cell => copy_cell offset cell)).

(** One row of the data frame [self.df], with the column names given to
    [pd.read_csv].  The three fields are strings: this is a data frame whose
    columns pandas read as text.  A field pandas turns into a number or into
    NaN (a column of digits only, an empty field) is outside this model. *)
Record Entry : Type := mkEntry {
  author : string;
  affil : string;
  date : string
}.

(** [df.iterrows()] from a starting index: the data frame has the default
    index 0, 1, 2, ... *)
Fixpoint iterrows_from (i : Z) (df : list Entry) : list (Z * Entry) :=
  match df with
  | [] => []
  | row :: df' => (i, row) :: iterrows_from (i + 1) df'
  end.

Definition iterrows (df : list Entry) : list (Z * Entry) := iterrows_from 0 df.

(** The attributes of a [COA] object. *)
Record COA : Type := mkCOA {
  wb : Workbook;
  wb_alt : Workbook;
  df : list Entry
}.

(** [COA._check_is_template]. *)
Definition _check_is_template (self : COA) : result unit * COA :=
  match sheetnames (wb self) !! 0%nat with
  | None => (Raise (IndexError "list index out of range"), self)
  | Some first =>
      if negb (String.eqb first TEMPLATE_SHEET)
      then (Raise (ValueError
                     "The first sheet of the workbook is not the NSF COA template"),
            self)
      else
        match wb_getitem (wb self) TEMPLATE_SHEET with
        | Raise e => (Raise e, self)
        | Ok sheet =>
            match ws_getitem ("B" +:+ str TABLE4_START_ROW) sheet with
            | (Raise e, sheet') => (Raise e, self)
            | (Ok c, sheet') =>
                if negb (obj_eqb (value c) (PyStr TABLE4_TEMPLATE_PERSON))
                then (Raise (ValueError
                               "The first row of the table 4 is not the template person"),
                      self)
                else
                  match tables_getitem sheet "TableD" with
                  | Raise e => (Raise e, self)
                  | Ok t =>
                      if negb (String.eqb (ref t) "A51:E56")
                      then (Raise (ValueError
                                     "The table 4 is not in the correct location"),
                            self)
                      else (Ok tt, self)
                  end
            end
        end
  end.

(** [num_to_add = len(self.df) - NUMBER_OF_EXISTING_ROWS_IN_TABLE4]. *)
Definition num_to_add_of (df : list Entry) : Z :=
  len df - NUMBER_OF_EXISTING_ROWS_IN_TABLE4.

(** "empty the first two rows of table 4". *)
Definition empty_first_rows : W unit :=
  for_ (range 2) (fun i =>
    for_ (range 5) (fun j =>
      let* c := ws_cell (TABLE4_START_ROW + i) (j + 1) in
      put_cell (TABLE4_START_ROW + i) (j + 1) (set_value PyNone c))).

(** "copy the last template row to the end of the new table". *)
Definition copy_last_row (num_to_add : Z) : W unit :=
  copy_range ("A" +:+ str (TABLE4_START_ROW + 5) +:+ ":E"
              +:+ str (TABLE4_START_ROW + 5))
             (num_to_add + NUMBER_OF_EXISTING_ROWS_IN_TABLE4 + 1).

(** "add enough rows to table 4 to accomodate all authors". *)
Definition add_rows (num_to_add : Z) : W unit :=
  insert_rows (TABLE4_START_ROW + 2) num_to_add.

(** The loop that copies the first data row onto the rows below it. *)
Definition style_rows (num_to_add : Z) : W unit :=
  for_ (range num_to_add) (fun i =>
    copy_range ("A" +:+ str TABLE4_START_ROW +:+ ":E" +:+ str TABLE4_START_ROW)
               (1 + i)).

(** "add in the authors and their affiliations".  The right-hand side of the
    fifth assignment is evaluated before the assignment. *)
Definition write_author (ir : Z * Entry) : W unit :=
  let '(i, row) := ir in
  ws_setitem ("A" +:+ str (TABLE4_START_ROW + i)) (PyStr "A:") >>
  ws_setitem ("B" +:+ str (TABLE4_START_ROW + i)) (PyStr (author row)) >>
  ws_setitem ("C" +:+ str (TABLE4_START_ROW + i)) (PyStr (affil row)) >>
  ws_setitem ("D" +:+ str (TABLE4_START_ROW + i)) (PyStr "") >>
  let* d := lift (_permute_date (date row)) in
  ws_setitem ("E" +:+ str (TABLE4_START_ROW + i)) (PyStr d).

Definition write_authors (df : list Entry) : W unit :=
  for_ (iterrows df) write_author.

(** [self.wb_alt["NSF COA Template"].tables[key]]. *)
Definition alt_table (wb_alt : Workbook) (key : string) : result Table :=
  match wb_getitem wb_alt TEMPLATE_SHEET with
  | Ok sheet => tables_getitem sheet key
  | Raise e => Raise e
  end.

(** "add the removed tables back in". *)
Definition readd_tables (wb_alt : Workbook) (elsewhere defined : list string)
    (num_to_add : Z) : W unit :=
  tables_delitem "TableD5" >>
  let* new_d5 := lift (alt_table wb_alt "TableD5") in
  add_table elsewhere defined
    {| displayName := displayName new_d5;
       name := name new_d5;
       ref := "A" +:+ str (58 + num_to_add + NUMBER_OF_EXISTING_ROWS_IN_TABLE4)
              +:+ ":E"
              +:+ str (68 + num_to_add + NUMBER_OF_EXISTING_ROWS_IN_TABLE4) |} >>
  tables_delitem "TableD" >>
  let* new_d := lift (alt_table wb_alt "TableD") in
  add_table elsewhere defined
    {| displayName := displayName new_d;
       name := name new_d;
       ref := "A" +:+ str (TABLE4_START_ROW - 1) +:+ ":E"
              +:+ str (TABLE4_START_ROW + num_to_add
                       + NUMBER_OF_EXISTING_ROWS_IN_TABLE4 - 1) |}.

(** The statements of [add_author_affiliations] after
    [sheet = self.wb["NSF COA Template"]], acting on that worksheet. *)
Definition expand_sheet (wb_alt : Workbook) (elsewhere defined : list string)
    (df : list Entry) : W unit :=
  let num_to_add := num_to_add_of df in
  empty_first_rows >>
  copy_last_row num_to_add >>
  add_rows num_to_add >>
  style_rows num_to_add >>
  write_authors df >>
  readd_tables wb_alt elsewhere defined num_to_add.

(** The table names of the worksheets other than the edited one. *)
Definition tables_elsewhere (wb : Workbook) : list string :=
  flat_map table_names
    (List.filter (fun ws => negb (String.eqb (title ws) TEMPLATE_SHEET))
                 (worksheets wb)).

(** The worksheet object is shared with the workbook: what was done to it
    shows in the workbook, also when a later statement raised. *)
Fixpoint put_sheet (ws' : Worksheet) (l : list Worksheet) : list Worksheet :=
  match l with
  | [] => []
  | ws :: l' =>
      if String.eqb (title ws) (title ws') then ws' :: l'
      else ws :: put_sheet ws' l'
  end.

(** [COA.add_author_affiliations]. *)
Definition add_author_affiliations (self : COA) : result unit * COA :=
  match wb_getitem (wb self) TEMPLATE_SHEET with
  | Raise e => (Raise e, self)
  | Ok sheet =>
      let '(r, sheet') :=
        expand_sheet (wb_alt self) (tables_elsewhere (wb self))
                     (defined_names (wb self)) (df self) sheet in
      (r, {| wb := {| worksheets := put_sheet sheet' (worksheets (wb self));
                      defined_names := defined_names (wb self) |};
             wb_alt := wb_alt self;
             df := df self |})
  end.

(** What a run leaves behind: how it ended, the object, and the spreadsheet
    files on disk.  A file is identified with the workbook [wb.save] wrote it
    from; what [load_workbook] makes of a file is not modelled, and no
    statement below reads a file back. *)
Record Run : Type := mkRun {
  outcome : result unit;
  self_after : COA;
  disk_after : gmap string Workbook
}.

(** [COA.__init__] from the two [load_workbook] calls on: [template] is what
    [load_workbook] returns for the template file and [csv] the data frame
    [pd.read_csv] returns.  (Finding or downloading the template file comes
    before and is not modelled; neither is the parsing of the CSV file.) *)
Definition __init__ (out_filename : string) (template : Workbook)
    (csv : list Entry) (disk : gmap string Workbook) : Run :=
  let self := {| wb := template; wb_alt := template; df := [] |} in
  match _check_is_template self with
  | (Raise e, self) => mkRun (Raise e) self disk
  | (Ok _, self) =>
      let self := {| wb := wb self; wb_alt := wb_alt self; df := csv |} in
      match add_author_affiliations self with
      | (Raise e, self) => mkRun (Raise e) self disk
      | (Ok _, self) =>
          mkRun (Ok tt) self (<[out_filename := wb self]> disk)
      end
  end.

(* ===================================================================== *)
(** ** Vocabulary of the statements *)
(* ===================================================================== *)

(** A statement that always returns and changes at most cells. *)
Definition keeps_frame (m : W unit) : Prop :=
  forall ws, exists ws', m ws = (Ok tt, ws') /\ same_frame ws ws'.

(** A statement that, however it ends, leaves the title of the worksheet
    alone; one that leaves its cells alone. *)
Definition keeps_title {A} (m : W A) : Prop :=
  forall ws, title (m ws).2 = title ws.

Definition keeps_cells {A} (m : W A) : Prop :=
  forall ws, _cells (m ws).2 = _cells ws.

(** The three checks of [_check_is_template], on the first worksheet. *)
Definition passes_checks (sheet : Worksheet) : Prop :=
  title sheet = TEMPLATE_SHEET /\
  value (cell_at sheet TABLE4_START_ROW 2) = PyStr TABLE4_TEMPLATE_PERSON /\
  exists t, tables sheet !! "TableD" = Some t /\ ref t = "A51:E56".

(** A table filed under its own name, which is also its display name, as in a
    workbook read from a file. *)
Definition own_name (ws : Worksheet) (key : string) : Prop :=
  exists t, tables ws !! key = Some t /\ name t = key /\ displayName t = key.

(** No name in [names] other than [key] itself is [key] up to case. *)
Definition no_clash (names : list string) (key : string) : bool :=
  forallb (fun k => String.eqb k key
                    || negb (String.eqb (lower key) (lower k))) names.

(** Nothing else in the workbook is called like one of the two tables. *)
Definition names_free (wb : Workbook) (sheet : Worksheet) (key : string) : bool :=
  no_clash (table_names sheet) key
  && negb (existsb (fun t => String.eqb (lower key) (lower t)) (tables_elsewhere wb))
  && negb (existsb (String.eqb (lower key)) (defined_names wb)).

(** The vendor template, as far as the script depends on it: the first
    worksheet passes the three checks and carries the two tables under their
    own names. *)
Definition vendor_template (wb : Workbook) (sheet : Worksheet)
    (rest : list Worksheet) : Prop :=
  worksheets wb = sheet :: rest /\
  passes_checks sheet /\
  own_name sheet "TableD" /\ own_name sheet "TableD5" /\
  names_free wb sheet "TableD" = true /\ names_free wb sheet "TableD5" = true.

(** Row [r] of the worksheet holds the entry [e] with the date [d]. *)
Definition row_holds (ws : Worksheet) (r : Z) (e : Entry) (d : string) : Prop :=
  value (cell_at ws r 1) = PyStr "A:" /\
  value (cell_at ws r 2) = PyStr (author e) /\
  value (cell_at ws r 3) = PyStr (affil e) /\
  value (cell_at ws r 4) = PyStr "" /\
  value (cell_at ws r 5) = PyStr d.

(** [n] blank rows were inserted before row [start]: the rows above it stay,
    rows [start .. start+n-1] are blank, and every later row holds what the
    row [n] places higher held. *)
Definition rows_inserted_at (start n : Z) (before after : Worksheet) : Prop :=
  forall r c,
    cell_at after r c
    = if decide (r < start) then cell_at before r c
      else if decide (r < start + n) then blank
      else cell_at before (r - n) c.

(** The value in B52 of the first worksheet, when there is one. *)
Definition first_b52 (wb : Workbook) : option obj :=
  match worksheets wb with
  | [] => None
  | s :: _ => Some (value (cell_at s TABLE4_START_ROW 2))
  end.

(** What a second run needs of the file a first run wrote: [loaded], the
    workbook [load_workbook] makes of the file written from [saved], has a
    first worksheet whose B52 holds the value B52 had when the file was
    written.  Nothing else is assumed of writing a file and reading it
    back. *)
Definition first_author_reads_back (saved loaded : Workbook) : Prop :=
  exists v, first_b52 saved = Some v /\ first_b52 loaded = Some v.

(** A date the reformatting accepts. *)
Definition date_ok (e : Entry) : Prop := (2 <= count slash (date e))%nat.

(** *** A small template and author list to run the script on *)

Definition styled (v : obj) (f : string) : Cell :=
  {| value := v; font := f; alignment := "left"; border := "thin";
     fill := "none"; number_format := "General"; protection := "locked" |}.

Definition sample_sheet : Worksheet :=
  {| title := "NSF COA Template";
     _cells := list_to_map
       [((51, 1), styled (PyStr "4") "bold");
        ((51, 2), styled (PyStr "Name:") "bold");
        ((52, 1), styled (PyStr "A:") "row1");
        ((52, 2), styled (PyStr "Alphaman, Lin") "row1");
        ((52, 3), styled (PyStr "University of Alphabet") "row1");
        ((52, 5), styled (PyStr "10/01/2016") "row1");
        ((53, 1), styled (PyStr "A:") "row2");
        ((53, 2), styled (PyStr "Betaman, Lin") "row2");
        ((54, 1), styled (PyStr "A:") "row3");
        ((55, 1), styled (PyStr "A:") "row4");
        ((56, 1), styled (PyStr "A:") "row5");
        ((57, 1), styled PyNone "footer");
        ((63, 1), styled (PyStr "5") "bold")];
     tables := list_to_map
       [("TableD", mkTable "TableD" "TableD" "A51:E56");
        ("TableD5", mkTable "TableD5" "TableD5" "A63:E73")] |}.

Definition sample_template : Workbook :=
  {| worksheets := [sample_sheet]; defined_names := [] |}.

Definition sample_entries : list Entry :=
  [ mkEntry "Abbott, B." "LIGO Laboratory" "2021/03/15";
    mkEntry "Bell, J." "Cambridge" "2020/11/02";
    mkEntry "Chandra, S." "Chicago" "2019/07/30";
    mkEntry "Dyson, F." "IAS" "2022/06/01";
    mkEntry "Eddington, A." "Cambridge" "2018/01/09";
    mkEntry "Faber, S." "UCSC" "2023/12/24";
    mkEntry "Gamow, G." "Colorado" "2017/05/05";
    mkEntry "Hubble, E." "Mount Wilson" "2016/09/19" ].

(** *** Vocabulary of the further properties *)

(** A statement that, however it ends, leaves the worksheet related to the
    one it started from. *)
Definition preserves {A} (I : Worksheet -> Worksheet -> Prop) (m : W A) : Prop :=
  forall ws, I ws (m ws).2.

(** The five style attributes [copy_range] assigns. *)
Definition style_of (c : Cell) : string * string * string * string * string :=
  (font c, alignment c, border c, fill c, number_format c).

(** Same title, same tables, and every cell has kept its protection. *)
Definition same_protection (ws ws' : Worksheet) : Prop :=
  same_frame ws ws' /\
  forall r c, protection (cell_at ws' r c) = protection (cell_at ws r c).

(** Same title, same tables, and every cell has kept its style: at most
    values differ. *)
Definition same_styles (ws ws' : Worksheet) : Prop :=
  same_frame ws ws' /\
  forall r c,
    style_of (cell_at ws' r c) = style_of (cell_at ws r c) /\
    protection (cell_at ws' r c) = protection (cell_at ws r c).

(** The sample template with one of its tables removed. *)
Definition sample_sheet_without (key : string) : Worksheet :=
  {| title := title sample_sheet;
     _cells := _cells sample_sheet;
     tables := delete key (tables sample_sheet) |}.

Definition sample_template_without (key : string) : Workbook :=
  {| worksheets := [sample_sheet_without key]; defined_names := [] |}.

(** The worksheet of the sample template when the run on the entries [df]
    reaches the statement that inserts the rows. *)
Definition sample_before_insertion (df : list Entry) : Worksheet :=
  ((empty_first_rows >> copy_last_row (num_to_add_of df)) sample_sheet).2.

(** The two worksheets show the same cells outside columns A to E of the rows
    [lo .. hi-1]. *)
Definition agree_outside (lo hi : Z) (ws ws' : Worksheet) : Prop :=
  forall r c, ~ (lo <= r < hi /\ 1 <= c <= 5) -> cell_at ws' r c = cell_at ws r c.

(** What the worksheet shows at a coordinate once the four statements before
    the loop over the entries have run with [n] rows to add, in terms of the
    worksheet [ws] they started from: the values of A52:E53 cleared, row 57
    copied [n + 6] rows down, [n] rows inserted before row 54, and row 52
    copied onto rows 53 .. 52+n. *)
Definition cleared_cell (ws : Worksheet) (r c : Z) : Cell :=
  if decide (52 <= r <= 53 /\ 1 <= c <= 5)
  then set_value PyNone (cell_at ws r c) else cell_at ws r c.

Definition relocated_cell (n : Z) (ws : Worksheet) (r c : Z) : Cell :=
  if decide (r = 57 + (n + 6) /\ 1 <= c <= 5)
  then copied (cleared_cell ws 57 c) (cleared_cell ws r c)
  else cleared_cell ws r c.

Definition inserted_cell (n : Z) (ws : Worksheet) (r c : Z) : Cell :=
  if decide (r < 54) then relocated_cell n ws r c
  else if decide (r < 54 + n) then blank
  else relocated_cell n ws (r - n) c.

Definition prepared_cell (n : Z) (ws : Worksheet) (r c : Z) : Cell :=
  if decide (53 <= r <= 52 + n /\ 1 <= c <= 5)
  then copied (inserted_cell n ws 52 c) (inserted_cell n ws r c)
  else inserted_cell n ws r c.

(* ===================================================================== *)
(** ** Splitting and joining strings *)
(* ===================================================================== *)

Section SplitJoin.
Variable sep : ascii.

Lemma append_sep (w : string) : String sep "" +:+ w = String sep w.
Proof. reflexivity. Qed.

Lemma append_nil (b : string) : "" +:+ b = b.
Proof. reflexivity. Qed.

Lemma append_empty_r (a : string) : a +:+ "" = a.
Proof.
  induction a as [|x a IH]; [reflexivity |].
  change (String x a +:+ "") with (String x (a +:+ "")). now f_equal.
Qed.

Lemma append_cons (x : ascii) (a b : string) :
  String x a +:+ b = String x (a +:+ b).
Proof. reflexivity. Qed.

Lemma append_assoc (a b c : string) : (a +:+ b) +:+ c = a +:+ (b +:+ c).
Proof.
  induction a as [|x a IH]; [reflexivity |].
  rewrite !append_cons. now f_equal.
Qed.

Lemma length_append (a b : string) :
  String.length (a +:+ b) = (String.length a + String.length b)%nat.
Proof.
  induction a as [|x a IH]; [reflexivity |].
  rewrite append_cons. simpl. now f_equal.
Qed.

Lemma count_append (a b : string) :
  count sep (a +:+ b) = (count sep a + count sep b)%nat.
Proof.
  induction a as [|x a IH]; [reflexivity |].
  rewrite append_cons. simpl. rewrite IH. lia.
Qed.

Lemma split_not_nil (s : string) : split sep s <> [].
Proof.
  destruct s as [|c s]; simpl; [discriminate |].
  destruct (Ascii.eqb c sep); [discriminate |].
  destruct (split sep s); discriminate.
Qed.

Lemma length_split (s : string) :
  length (split sep s) = S (count sep s).
Proof.
  induction s as [|c s IH]; simpl; [reflexivity |].
  destruct (Ascii.eqb c sep); simpl; [now rewrite IH |].
  destruct (split sep s) as [|w ws] eqn:E; simpl in *; [discriminate | exact IH].
Qed.

Lemma split_sep_free (s : string) : Forall (sep_free sep) (split sep s).
Proof.
  induction s as [|c s IH]; simpl.
  - repeat constructor.
  - destruct (Ascii.eqb c sep) eqn:Ec.
    + constructor; [reflexivity | exact IH].
    + destruct (split sep s) as [|w ws].
      * constructor; [| constructor]. unfold sep_free; simpl. now rewrite Ec.
      * inversion IH as [|? ? Hw Hws]; subst. constructor; [| exact Hws].
        unfold sep_free in *; simpl. now rewrite Ec, Hw.
Qed.

Lemma join_split (s : string) : join sep (split sep s) = s.
Proof.
  induction s as [|c s IH]; simpl; [reflexivity |].
  destruct (Ascii.eqb c sep) eqn:Ec.
  - apply Ascii.eqb_eq in Ec; subst c.
    destruct (split sep s) as [|w ws] eqn:E.
    + now apply split_not_nil in E.
    + change (join sep ("" :: w :: ws)) with (String sep (join sep (w :: ws))).
      now rewrite IH.
  - destruct (split sep s) as [|w ws] eqn:E.
    + now apply split_not_nil in E.
    + destruct ws as [|w' ws]; simpl in *; now rewrite <- IH.
Qed.

Lemma split_free (w : string) : sep_free sep w -> split sep w = [w].
Proof.
  unfold sep_free. induction w as [|c w IH]; simpl; [reflexivity |].
  destruct (Ascii.eqb c sep); [discriminate |].
  intros H. now rewrite IH.
Qed.

Lemma split_cons (w rest : string) :
  sep_free sep w -> split sep (w +:+ String sep rest) = w :: split sep rest.
Proof.
  unfold sep_free. induction w as [|c w IH].
  - intros _. rewrite append_nil. simpl. now rewrite Ascii.eqb_refl.
  - rewrite append_cons. simpl.
    destruct (Ascii.eqb c sep); [discriminate |].
    intros H. now rewrite IH.
Qed.

Lemma split_join (parts : list string) :
  parts <> [] -> Forall (sep_free sep) parts -> split sep (join sep parts) = parts.
Proof.
  induction parts as [|w [|w' ws] IH]; intros Hne Hall.
  - congruence.
  - inversion Hall; subst. now apply split_free.
  - inversion Hall as [|? ? Hw Hrest]; subst.
    change (join sep (w :: w' :: ws))
      with (w +:+ String sep (join sep (w' :: ws))).
    rewrite split_cons by exact Hw.
    now rewrite IH.
Qed.

Lemma count_join (parts : list string) :
  Forall (sep_free sep) parts -> count sep (join sep parts) = pred (length parts).
Proof.
  induction parts as [|w [|w' ws] IH]; intros Hall; [reflexivity | |].
  - inversion Hall; subst. assumption.
  - inversion Hall as [|? ? Hw Hrest]; subst.
    change (join sep (w :: w' :: ws))
      with (w +:+ String sep (join sep (w' :: ws))).
    specialize (IH Hrest). unfold sep_free in Hw.
    remember (join sep (w' :: ws)) as J.
    rewrite count_append, Hw. simpl. rewrite Ascii.eqb_refl, IH. simpl. lia.
Qed.

End SplitJoin.

(** A string with exactly two separators is [a/b/c] for separator-free
    [a], [b], [c], and splits into exactly these. *)
Lemma split_two_slashes (s : string) :
  count slash s = 2%nat ->
  exists a b c,
    sep_free slash a /\ sep_free slash b /\ sep_free slash c /\
    split slash s = [a; b; c] /\ s = join slash [a; b; c].
Proof.
  intros H.
  pose proof (length_split slash s) as Hlen. rewrite H in Hlen.
  pose proof (split_sep_free slash s) as Hall.
  pose proof (join_split slash s) as Hj.
  destruct (split slash s) as [|a [|b [|c [|d l]]]]; try discriminate.
  inversion Hall as [|? ? Ha Hall1]; subst.
  inversion Hall1 as [|? ? Hb Hall2]; subst.
  inversion Hall2 as [|? ? Hc _]; subst.
  exists a, b, c. split; [exact Ha |]. split; [exact Hb |].
  split; [exact Hc |]. split; [reflexivity | now symmetry].
Qed.

Lemma permute_date_cases (s : string) :
  match _permute_date s with
  | Ok _ => (2 <= count slash s)%nat
  | Raise e => (count slash s < 2)%nat /\ e = IndexError "list index out of range"
  end.
Proof.
  unfold _permute_date.
  pose proof (length_split slash s) as Hlen.
  destruct (split slash s) as [|c0 [|c1 [|c2 l]]]; simpl in *; try discriminate.
  - split; [lia | reflexivity].
  - split; [lia | reflexivity].
  - lia.
Qed.

Lemma permute_date_ok (s : string) :
  (2 <= count slash s)%nat -> exists d, _permute_date s = Ok d.
Proof.
  intros H. pose proof (permute_date_cases s) as Hc.
  destruct (_permute_date s) as [d|e]; [now exists d |].
  destruct Hc as [Hlt _]. lia.
Qed.

Lemma permute_date_join (c0 c1 c2 : string) (rest : list string) :
  sep_free slash c0 -> sep_free slash c1 -> sep_free slash c2 ->
  Forall (sep_free slash) rest ->
  _permute_date (join slash (c0 :: c1 :: c2 :: rest))
  = Ok (join slash [c1; c2; c0]).
Proof.
  intros H0 H1 H2 Hr. unfold _permute_date.
  rewrite split_join; [reflexivity | discriminate |].
  repeat constructor; assumption.
Qed.

(* ===================================================================== *)
(** ** The date reformatting *)
(* ===================================================================== *)

(** C6.  For every date string of the form A/B/C, whatever the three
    components are (nothing checks that they are a year, a month or a day),
    [_permute_date] returns B/C/A. *)
Theorem permute_date_reorders (a b c : string) :
  sep_free slash a -> sep_free slash b -> sep_free slash c ->
  _permute_date (a +:+ "/" +:+ b +:+ "/" +:+ c)
  = Ok (b +:+ "/" +:+ c +:+ "/" +:+ a).
Proof.
  intros Ha Hb Hc.
  exact (permute_date_join a b c [] Ha Hb Hc (List.Forall_nil _)).
Qed.

Lemma permute_date_reorders_witness :
  _permute_date ("year" +:+ "/" +:+ "13" +:+ "/" +:+ "32")
  = Ok ("13" +:+ "/" +:+ "32" +:+ "/" +:+ "year").
Proof. apply permute_date_reorders; reflexivity. Defined.

(** C5.  On the strings with exactly two "/" separators, [_permute_date] is a
    bijection: such a string is Y/M/D and is sent to M/D/Y, which again has
    exactly two separators; the inverse transform (last component back to the
    front) recovers the string, and every such string is the image of its
    inverse transform. *)
Theorem permute_date_bijection (s : string) :
  count slash s = 2%nat ->
  (exists y m d,
      s = y +:+ "/" +:+ m +:+ "/" +:+ d /\
      _permute_date s = Ok (m +:+ "/" +:+ d +:+ "/" +:+ y) /\
      count slash (m +:+ "/" +:+ d +:+ "/" +:+ y) = 2%nat /\
      inverse_transform (m +:+ "/" +:+ d +:+ "/" +:+ y) = s) /\
  count slash (inverse_transform s) = 2%nat /\
  _permute_date (inverse_transform s) = Ok s.
Proof.
  intros H.
  destruct (split_two_slashes s H) as (a & b & c & Ha & Hb & Hc & Hsplit & Hs).
  assert (Hall : forall x y z, sep_free slash x -> sep_free slash y ->
                   sep_free slash z -> Forall (sep_free slash) [x; y; z])
    by (intros; repeat constructor; assumption).
  split; [exists a, b, c | split].
  - split; [exact Hs |]. split.
    + unfold _permute_date. now rewrite Hsplit.
    + split.
      * exact (count_join slash [b; c; a] (Hall _ _ _ Hb Hc Ha)).
      * unfold inverse_transform.
        change (b +:+ "/" +:+ c +:+ "/" +:+ a) with (join slash [b; c; a]).
        rewrite split_join; [| discriminate | now apply Hall].
        now rewrite Hs.
  - unfold inverse_transform. rewrite Hsplit.
    exact (count_join slash [c; a; b] (Hall _ _ _ Hc Ha Hb)).
  - unfold inverse_transform. rewrite Hsplit.
    change (join slash (c :: reverse [b; a])) with (join slash [c; a; b]).
    rewrite Hs.
    exact (permute_date_join c a b [] Hc Ha Hb (List.Forall_nil _)).
Qed.

Lemma permute_date_bijection_witness :
  (exists y m d,
      "2022/06/01" = y +:+ "/" +:+ m +:+ "/" +:+ d /\
      _permute_date "2022/06/01" = Ok (m +:+ "/" +:+ d +:+ "/" +:+ y) /\
      count slash (m +:+ "/" +:+ d +:+ "/" +:+ y) = 2%nat /\
      inverse_transform (m +:+ "/" +:+ d +:+ "/" +:+ y) = "2022/06/01") /\
  count slash (inverse_transform "2022/06/01") = 2%nat /\
  _permute_date (inverse_transform "2022/06/01") = Ok "2022/06/01".
Proof. apply permute_date_bijection. reflexivity. Defined.

(** C8, as the code has it.  [_permute_date] returns exactly when the string
    has at least two "/" separators; with fewer, the subscript [date[1]] or
    [date[2]] raises IndexError. *)
Theorem permute_date_returns_iff_two_slashes (s : string) :
  match _permute_date s with
  | Ok _ => (2 <= count slash s)%nat
  | Raise e => (count slash s < 2)%nat /\ e = IndexError "list index out of range"
  end.
Proof. exact (permute_date_cases s). Qed.

(** C8, as stated, fails: a date without separators raises. *)
Lemma permute_date_not_total :
  ~ (forall s : string, exists t, _permute_date s = Ok t).
Proof.
  intros H. destruct (H "20220601") as [t Ht]. discriminate Ht.
Qed.

(** C10.  With more than two separators the components after the third are
    dropped: c0/c1/c2/tail is sent to c1/c2/c0 whatever [tail] is, so the
    string collides with another one of the same kind. *)
Theorem permute_date_drops_tail (c0 c1 c2 tail : string) :
  sep_free slash c0 -> sep_free slash c1 -> sep_free slash c2 ->
  let s := c0 +:+ "/" +:+ c1 +:+ "/" +:+ c2 +:+ "/" +:+ tail in
  (2 < count slash s)%nat /\
  _permute_date s = Ok (c1 +:+ "/" +:+ c2 +:+ "/" +:+ c0) /\
  exists s', s' <> s /\ (2 < count slash s')%nat /\
             _permute_date s' = _permute_date s.
Proof.
  intros H0 H1 H2.
  assert (Hp : forall t,
    _permute_date (c0 +:+ "/" +:+ c1 +:+ "/" +:+ c2 +:+ "/" +:+ t)
    = Ok (c1 +:+ "/" +:+ c2 +:+ "/" +:+ c0)).
  { intros t. unfold _permute_date.
    rewrite !append_sep, !split_cons by assumption.
    pose proof (split_not_nil slash t) as Hne.
    destruct (split slash t); [congruence | reflexivity]. }
  assert (Hc : forall t,
    (2 < count slash (c0 +:+ "/" +:+ c1 +:+ "/" +:+ c2 +:+ "/" +:+ t))%nat).
  { intros t. rewrite !append_sep.
    assert (Hs : forall x, count slash (String "/" x) = S (count slash x))
      by reflexivity.
    repeat (rewrite count_append || rewrite Hs). lia. }
  intros s. split; [apply Hc |]. split; [apply Hp |].
  exists (c0 +:+ "/" +:+ c1 +:+ "/" +:+ c2 +:+ "/" +:+ (tail +:+ "x")).
  split; [| split; [apply Hc | unfold s; now rewrite !Hp]].
  intros E. apply (f_equal String.length) in E. unfold s in E.
  rewrite !length_append in E. simpl in E. lia.
Qed.

Lemma permute_date_drops_tail_witness :
  let s := "2022" +:+ "/" +:+ "06" +:+ "/" +:+ "01" +:+ "/" +:+ "extra/more" in
  (2 < count slash s)%nat /\
  _permute_date s = Ok ("06" +:+ "/" +:+ "01" +:+ "/" +:+ "2022") /\
  exists s', s' <> s /\ (2 < count slash s')%nat /\
             _permute_date s' = _permute_date s.
Proof. apply permute_date_drops_tail; reflexivity. Defined.

(* ===================================================================== *)
(** ** Formatting a row number and reading it back *)
(* ===================================================================== *)

Section Coordinates.

(** [str n], for [n >= 0], is a non-empty run of decimal digits. *)
Lemma str_nonneg (n : Z) :
  0 <= n ->
  exists d, d <> Decimal.Nil /\ str n = NilEmpty.string_of_uint d /\ Z.of_uint d = n.
Proof.
  intros Hn. destruct n as [|p|p]; [| | lia].
  - exists (Decimal.D0 Decimal.Nil). repeat split; discriminate.
  - exists (Pos.to_uint p). split; [apply DecimalPos.Unsigned.to_uint_nonnil |].
    split; [reflexivity |].
    unfold Z.of_uint. now rewrite DecimalPos.Unsigned.of_to.
Qed.

Lemma span_digits_uint (d : Decimal.uint) (rest : string) :
  span is_digit rest = ("", rest) ->
  span is_digit (NilEmpty.string_of_uint d +:+ rest)
  = (NilEmpty.string_of_uint d, rest).
Proof.
  intros Hrest.
  induction d as [|d IH|d IH|d IH|d IH|d IH|d IH|d IH|d IH|d IH|d IH];
    [exact Hrest | ..];
    simpl NilEmpty.string_of_uint; rewrite append_cons;
    simpl; now rewrite IH.
Qed.

Lemma letters_stop_at_uint (d : Decimal.uint) (rest : string) :
  d <> Decimal.Nil ->
  span is_letter (NilEmpty.string_of_uint d +:+ rest)
  = ("", NilEmpty.string_of_uint d +:+ rest)
  /\ skip_dollar (NilEmpty.string_of_uint d +:+ rest)
     = NilEmpty.string_of_uint d +:+ rest
  /\ (1 <=? String.length (NilEmpty.string_of_uint d))%nat = true.
Proof.
  intros Hd. destruct d; [congruence | ..];
    simpl NilEmpty.string_of_uint; rewrite append_cons; repeat split.
Qed.

Lemma int_of_digits_uint (d : Decimal.uint) :
  int_of_digits (NilEmpty.string_of_uint d) = Some (Z.of_uint d).
Proof. unfold int_of_digits. now rewrite NilEmpty.usu. Qed.

(** A column letter A..E followed by a formatted row number reads back as
    that column and row. *)
Lemma corner_of_str (L : ascii) (n : Z) (rest : string) :
  In L ["A"; "B"; "C"; "D"; "E"]%char ->
  0 <= n ->
  span is_digit rest = ("", rest) ->
  corner (String L (str n +:+ rest)) = Some (letter_value L, n, rest).
Proof.
  intros HL Hn Hrest.
  destruct (str_nonneg n Hn) as (d & Hd & -> & <-).
  destruct (letters_stop_at_uint d rest Hd) as (Hl & Hs & Hlen).
  pose proof (span_digits_uint d rest Hrest) as Hdig.
  pose proof (int_of_digits_uint d) as Hint.
  unfold corner.
  assert (Hspan : span is_letter (skip_dollar
                    (String L (NilEmpty.string_of_uint d +:+ rest)))
                  = (String L "", NilEmpty.string_of_uint d +:+ rest)).
  { simpl in HL.
    destruct HL as [<-|[<-|[<-|[<-|[<-|[]]]]]]; simpl; now rewrite Hl. }
  rewrite Hspan, Hs, Hdig, Hlen, Hint.
  simpl in HL.
  destruct HL as [<-|[<-|[<-|[<-|[<-|[]]]]]]; reflexivity.
Qed.

Lemma coordinate_of_str (L : ascii) (n : Z) :
  In L ["A"; "B"; "C"; "D"; "E"]%char ->
  0 <= n ->
  coordinate (String L (str n)) = Ok (n, letter_value L).
Proof.
  intros HL Hn. unfold coordinate.
  pose proof (corner_of_str L n "" HL Hn eq_refl) as H.
  rewrite append_empty_r in H. now rewrite H.
Qed.

(** The reference ["A<r1>:E<r2>"] spans columns 1 to 5 and rows [r1] to
    [r2]. *)
Lemma range_boundaries_A_E (r1 r2 : Z) :
  0 <= r1 -> 0 <= r2 ->
  range_boundaries ("A" +:+ str r1 +:+ ":E" +:+ str r2) = Some (1, r1, 5, r2).
Proof.
  intros H1 H2. unfold range_boundaries.
  change ("A" +:+ str r1 +:+ ":E" +:+ str r2)
    with (String "A" (str r1 +:+ String ":" (String "E" (str r2)))).
  rewrite corner_of_str; [| simpl; tauto | exact H1 | reflexivity].
  pose proof (corner_of_str "E" r2 "" ltac:(simpl; tauto) H2 eq_refl) as H.
  rewrite append_empty_r in H. now rewrite H.
Qed.

End Coordinates.

(* ===================================================================== *)
(** ** Running worksheet statements *)
(* ===================================================================== *)

Section Running.

(** Closes a case whose hypotheses on the region of a copy contradict each
    other. *)
Ltac refute_region :=
  exfalso;
  repeat match goal with H : _ /\ _ |- _ => destruct H end;
  first [ lia
        | match goal with
          | H : ~ _ |- _ => apply H; split; [lia | assumption]
          end ].

Lemma same_frame_refl ws : same_frame ws ws.
Proof. split; reflexivity. Qed.

Lemma same_frame_trans ws1 ws2 ws3 :
  same_frame ws1 ws2 -> same_frame ws2 ws3 -> same_frame ws1 ws3.
Proof. intros [? ?] [? ?]. split; congruence. Qed.

Lemma bind_ok {A B} (m : W A) (k : A -> W B) ws a ws1 :
  m ws = (Ok a, ws1) -> bind m k ws = k a ws1.
Proof. intros H. unfold bind. now rewrite H. Qed.

Lemma bind_raise {A B} (m : W A) (k : A -> W B) ws e ws1 :
  m ws = (Raise e, ws1) -> bind m k ws = (Raise e, ws1).
Proof. intros H. unfold bind. now rewrite H. Qed.

Lemma ws_cell_ok (row column : Z) ws :
  1 <= row -> 1 <= column -> ws_cell row column ws = (Ok (cell_at ws row column), ws).
Proof.
  intros Hr Hc. unfold ws_cell.
  destruct (Z.ltb_spec row 1); [lia |].
  destruct (Z.ltb_spec column 1); [lia | reflexivity].
Qed.

Lemma ws_cell_raises (row column : Z) ws :
  row < 1 ->
  ws_cell row column ws
  = (Raise (ValueError "Row or column values must be at least 1"), ws).
Proof.
  intros Hr. unfold ws_cell. destruct (Z.ltb_spec row 1); [reflexivity | lia].
Qed.

Lemma get_cell_ok (row column : Z) ws :
  1 <= row -> _get_cell row column ws = (Ok (cell_at ws row column), ws).
Proof.
  intros Hr. unfold _get_cell.
  destruct (Z.ltb_spec row 1); [lia | reflexivity].
Qed.

Lemma cell_at_insert t m tb (k : Z * Z) x r c :
  cell_at (mkWorksheet t (<[k := x]> m) tb) r c
  = if decide (k = (r, c)) then x else cell_at (mkWorksheet t m tb) r c.
Proof.
  unfold cell_at. simpl. rewrite lookup_insert.
  destruct (decide (k = (r, c))); reflexivity.
Qed.

Lemma cell_at_eta ws r c :
  cell_at (mkWorksheet (title ws) (_cells ws) (tables ws)) r c = cell_at ws r c.
Proof. reflexivity. Qed.

(** One assignment of the loop body of [copy_range]. *)
Lemma copy_cell_ok (offset r c : Z) ws :
  1 <= r -> 1 <= r + offset -> 1 <= c ->
  exists ws',
    copy_cell offset (r, c) ws = (Ok tt, ws') /\ same_frame ws ws' /\
    forall r' c',
      cell_at ws' r' c'
      = if decide ((r + offset, c) = (r', c'))
        then copied (cell_at ws r c) (cell_at ws (r + offset) c)
        else cell_at ws r' c'.
Proof.
  intros Hr Hd Hc. eexists. split; [| split].
  - unfold copy_cell. simpl.
    rewrite (bind_ok _ _ _ _ _ (get_cell_ok r c ws Hr)).
    rewrite (bind_ok _ _ _ _ _ (ws_cell_ok (r + offset) c ws Hd Hc)).
    rewrite (bind_ok _ _ _ _ _ (get_cell_ok r c ws Hr)).
    reflexivity.
  - split; reflexivity.
  - intros r' c'. rewrite cell_at_insert. reflexivity.
Qed.

(** The inner loop of [copy_range] on one row. *)
Lemma copy_row_ok (offset r : Z) (cols : list Z) ws :
  1 <= r -> 1 <= r + offset -> Forall (fun c => 1 <= c) cols -> NoDup cols ->
  exists ws',
    for_ (map (fun col => (r, col)) cols) (copy_cell offset) ws = (Ok tt, ws') /\
    same_frame ws ws' /\
    forall r' c',
      cell_at ws' r' c'
      = if decide (r' = r + offset /\ c' ∈ cols)
        then copied (cell_at ws r c') (cell_at ws r' c')
        else cell_at ws r' c'.
Proof.
  intros Hr Hd Hcols Hnd. revert ws.
  induction cols as [|c cols IH]; intros ws.
  - exists ws. split; [reflexivity |]. split; [apply same_frame_refl |].
    intros r' c'. destruct (decide _) as [[_ Hin]|]; [| reflexivity].
    now apply not_elem_of_nil in Hin.
  - apply Forall_cons in Hcols as [Hc Hcols].
    apply NoDup_cons in Hnd as [Hnotin Hnd].
    destruct (copy_cell_ok offset r c ws Hr Hd Hc) as (ws1 & Hrun1 & Hfr1 & Hat1).
    destruct (IH Hcols Hnd ws1) as (ws2 & Hrun2 & Hfr2 & Hat2).
    exists ws2. split; [| split].
    + simpl. now rewrite (bind_ok _ _ _ _ _ Hrun1).
    + eapply same_frame_trans; eassumption.
    + intros r' c'. rewrite Hat2, !Hat1.
      repeat destruct (decide _) as [?|?]; try reflexivity;
        try (exfalso; set_solver); f_equal; set_solver.
Qed.

(** The outer loop of [copy_range] on [n] consecutive rows from row [a].
    Either the destination rows lie above or on the source rows, or they lie
    below all of them; a source row is then read before it is written. *)
Lemma copy_rows_ok (offset : Z) (cols : list Z) (n : nat) (a : Z) ws :
  1 <= a -> 1 <= a + offset -> Forall (fun c => 1 <= c) cols -> NoDup cols ->
  offset <= 0 \/ Z.of_nat n <= offset ->
  exists ws',
    for_ (map (fun row => map (fun col => (row, col)) cols) (seqZ a (Z.of_nat n)))
         (fun row => for_ row (copy_cell offset)) ws = (Ok tt, ws') /\
    same_frame ws ws' /\
    forall r' c',
      cell_at ws' r' c'
      = if decide (a <= r' - offset < a + Z.of_nat n /\ c' ∈ cols)
        then copied (cell_at ws (r' - offset) c') (cell_at ws r' c')
        else cell_at ws r' c'.
Proof.
  intros Ha Hd Hcols Hnd. revert a ws Ha Hd.
  induction n as [|n IH]; intros a ws Ha Hd Hoff.
  - exists ws. split; [reflexivity |]. split; [apply same_frame_refl |].
    intros r' c'. destruct (decide _) as [[? _]|]; [lia | reflexivity].
  - rewrite seqZ_cons by lia.
    replace (Z.pred (Z.of_nat (S n))) with (Z.of_nat n) by lia.
    destruct (copy_row_ok offset a cols ws Ha Hd Hcols Hnd)
      as (ws1 & Hrun1 & Hfr1 & Hat1).
    destruct (IH (Z.succ a) ws1 ltac:(lia) ltac:(lia) ltac:(lia))
      as (ws2 & Hrun2 & Hfr2 & Hat2).
    exists ws2. split; [| split].
    + simpl. now rewrite (bind_ok _ _ _ _ _ Hrun1).
    + eapply same_frame_trans; eassumption.
    + intros r' c'. rewrite Hat2, !Hat1.
      repeat destruct (decide _) as [?|?]; try reflexivity;
        try (replace (r' - offset) with a by lia; reflexivity);
        destruct (Z.eq_dec (r' - offset) a); refute_region.
Qed.

(** A parsed corner has a column of at least 1. *)
Lemma span_letters (s a b : string) :
  span is_letter s = (a, b) ->
  forall acc, 0 <= acc -> (1 <= String.length a)%nat -> 1 <= column_index_from acc a.
Proof.
  revert a b. induction s as [|x s IH]; intros a b Hs acc Hacc Hlen.
  - inversion Hs; subst. simpl in Hlen. lia.
  - simpl in Hs. destruct (is_letter x) eqn:Hx.
    + destruct (span is_letter s) as [a' b'] eqn:Es. inversion Hs; subst.
      simpl.
      assert (Hv : 1 <= letter_value x).
      { unfold is_letter in Hx. unfold letter_value.
        destruct (Z.leb_spec 97 (Z.of_nat (nat_of_ascii x))); [lia |].
        apply orb_true_iff in Hx as [Hx|Hx];
          apply andb_true_iff in Hx as [Hx1 Hx2];
          apply Nat.leb_le in Hx1; apply Nat.leb_le in Hx2; lia. }
      destruct a' as [|y a'].
      * simpl. lia.
      * apply (IH _ _ eq_refl); [lia | simpl; lia].
    + inversion Hs; subst. simpl in Hlen. lia.
Qed.

Lemma corner_col_pos (s : string) (c r : Z) (rest : string) :
  corner s = Some (c, r, rest) -> 1 <= c.
Proof.
  unfold corner.
  destruct (span is_letter (skip_dollar s)) as [ls s1] eqn:El.
  destruct (span is_digit (skip_dollar s1)) as [ds s2].
  destruct ((1 <=? String.length ls)%nat && (String.length ls <=? 3)%nat
            && (1 <=? String.length ds)%nat) eqn:Hb; [| discriminate].
  destruct (int_of_digits ds); [| discriminate].
  intros E. inversion E; subst.
  apply andb_true_iff in Hb as [Hb _]. apply andb_true_iff in Hb as [H1 _].
  apply Nat.leb_le in H1.
  exact (span_letters _ _ _ El 0 ltac:(lia) H1).
Qed.

Lemma range_boundaries_col_pos (s : string) (c1 r1 c2 r2 : Z) :
  range_boundaries s = Some (c1, r1, c2, r2) -> 1 <= c1.
Proof.
  unfold range_boundaries.
  destruct (corner s) as [[[c r] rest]|] eqn:E; [| discriminate].
  apply corner_col_pos in E.
  destruct (at_end rest).
  - intros H. inversion H; subst. exact E.
  - destruct rest as [|x rest]; [discriminate |].
    destruct (Ascii.ascii_dec x ":") as [->|Hx].
    + destruct (corner rest) as [[[c' r'] rest'']|]; [| discriminate].
      destruct (at_end rest''); [| discriminate].
      intros H. inversion H; subst. exact E.
    + destruct x as [[] [] [] [] [] [] [] []]; try discriminate.
      congruence.
Qed.

(** [copy_range] on a parsed range, under the conditions of [copy_rows_ok]. *)
Lemma copy_range_ok (range_str : string) (offset : Z) ws (c1 r1 c2 r2 : Z) :
  range_boundaries range_str = Some (c1, r1, c2, r2) ->
  1 <= r1 -> 1 <= r1 + offset ->
  offset <= 0 \/ r2 - r1 < offset ->
  exists ws',
    copy_range range_str offset ws = (Ok tt, ws') /\ same_frame ws ws' /\
    forall r c,
      cell_at ws' r c
      = if decide ((r1 <= r - offset <= r2) /\ (c1 <= c <= c2))
        then copied (cell_at ws (r - offset) c) (cell_at ws r c)
        else cell_at ws r c.
Proof.
  intros Hrb Hr Hd Hoff.
  pose proof (range_boundaries_col_pos _ _ _ _ _ Hrb) as Hc.
  set (n := Z.to_nat (r2 - r1 + 1)).
  set (cols := seqZ c1 (c2 - c1 + 1)).
  assert (Hcols : Forall (fun c => 1 <= c) cols).
  { apply Forall_seqZ. intros; lia. }
  destruct (copy_rows_ok offset cols n r1 ws Hr Hd Hcols (NoDup_seqZ _ _)
              ltac:(lia)) as (ws' & Hrun & Hfr & Hat).
  exists ws'. split; [| split; [exact Hfr |]].
  - unfold copy_range, rows_from_range. rewrite Hrb. unfold lift.
    erewrite bind_ok by reflexivity.
    replace (seqZ r1 (r2 - r1 + 1)) with (seqZ r1 (Z.of_nat n)); [exact Hrun |].
    unfold seqZ, n. now rewrite Nat2Z.id.
  - intros r c. rewrite Hat. apply decide_ext.
    unfold cols. rewrite elem_of_seqZ. lia.
Qed.

Lemma keeps_frame_bind (m k : W unit) :
  keeps_frame m -> keeps_frame k -> keeps_frame (m >> k).
Proof.
  intros Hm Hk ws.
  destruct (Hm ws) as (ws1 & Hrun1 & Hfr1).
  destruct (Hk ws1) as (ws2 & Hrun2 & Hfr2).
  exists ws2. split; [| eapply same_frame_trans; eassumption].
  now rewrite (bind_ok _ _ _ _ _ Hrun1).
Qed.

Lemma keeps_frame_for {A} (l : list A) (body : A -> W unit) :
  (forall x, x ∈ l -> keeps_frame (body x)) -> keeps_frame (for_ l body).
Proof.
  induction l as [|x l IH]; intros Hbody.
  - intros ws. exists ws. split; [reflexivity | apply same_frame_refl].
  - simpl. apply keeps_frame_bind.
    + apply Hbody. apply elem_of_cons. now left.
    + apply IH. intros y Hy. apply Hbody. apply elem_of_cons. now right.
Qed.

(** From row 0 on, every row [insert_rows] visits is on the sheet. *)
Lemma rows_visited_on_sheet (idx : Z) (m : gmap (Z * Z) Cell) :
  0 <= idx -> existsb (fun k => k.1 <? 1) (rows_visited idx m) = false.
Proof.
  intros Hidx. apply not_true_is_false. intros H.
  apply existsb_exists in H as ([r c] & Hin & Hlt).
  unfold rows_visited in Hin. apply in_flat_map in Hin as (row & Hrow & Hin).
  apply in_map_iff in Hin as (col & E & _). inversion E; subst.
  apply list_elem_of_In, elem_of_seqZ in Hrow.
  simpl in Hlt. apply Z.ltb_lt in Hlt.
  destruct (Z.eqb_spec idx 0); lia.
Qed.

Lemma insert_rows_runs (idx amount : Z) ws :
  0 <= idx ->
  insert_rows idx amount ws
  = (Ok tt, {| title := title ws;
               _cells := move_rows idx amount
                           (materialise (rows_visited idx (_cells ws)) (_cells ws));
               tables := tables ws |}).
Proof.
  intros Hidx. unfold insert_rows.
  now rewrite (rows_visited_on_sheet idx (_cells ws) Hidx).
Qed.

Lemma keeps_frame_insert_rows (idx amount : Z) :
  0 <= idx -> keeps_frame (insert_rows idx amount).
Proof.
  intros Hidx ws. rewrite (insert_rows_runs idx amount ws Hidx).
  eexists. split; [reflexivity | split; reflexivity].
Qed.

Lemma keeps_frame_copy_range (range_str : string) (offset c1 r1 c2 r2 : Z) :
  range_boundaries range_str = Some (c1, r1, c2, r2) ->
  1 <= r1 -> 1 <= r1 + offset -> offset <= 0 \/ r2 - r1 < offset ->
  keeps_frame (copy_range range_str offset).
Proof.
  intros Hrb Hr Hd Hoff ws.
  destruct (copy_range_ok range_str offset ws c1 r1 c2 r2 Hrb Hr Hd Hoff)
    as (ws' & Hrun & Hfr & _).
  now exists ws'.
Qed.

Lemma keeps_frame_empty_first_rows : keeps_frame empty_first_rows.
Proof.
  unfold empty_first_rows. apply keeps_frame_for. intros i Hi.
  apply keeps_frame_for. intros j Hj.
  unfold range in Hi, Hj. apply elem_of_seqZ in Hi. apply elem_of_seqZ in Hj.
  assert (Hr : 1 <= TABLE4_START_ROW + i) by (unfold TABLE4_START_ROW; lia).
  assert (Hc : 1 <= j + 1) by lia.
  intros ws. eexists.
  rewrite (bind_ok _ _ _ _ _ (ws_cell_ok _ _ ws Hr Hc)).
  split; [reflexivity | split; reflexivity].
Qed.

Lemma keeps_frame_copy_last_row (n : Z) :
  0 <= n + NUMBER_OF_EXISTING_ROWS_IN_TABLE4 -> keeps_frame (copy_last_row n).
Proof.
  intros Hn. unfold copy_last_row.
  apply (keeps_frame_copy_range _ _ 1 57 5 57);
    [reflexivity | lia | unfold NUMBER_OF_EXISTING_ROWS_IN_TABLE4 in *; lia
     | unfold NUMBER_OF_EXISTING_ROWS_IN_TABLE4 in *; lia].
Qed.

Lemma keeps_frame_style_rows (n : Z) : keeps_frame (style_rows n).
Proof.
  unfold style_rows. apply keeps_frame_for. intros i Hi.
  unfold range in Hi. apply elem_of_seqZ in Hi.
  apply (keeps_frame_copy_range _ _ 1 52 5 52); [reflexivity | lia | lia | lia].
Qed.

(** An assignment [sheet[f"<L><n>"] = v]. *)
Lemma ws_setitem_ok (L : ascii) (n : Z) (v : obj) ws :
  In L ["A"; "B"; "C"; "D"; "E"]%char -> 1 <= n ->
  exists ws',
    ws_setitem (String L (str n)) v ws = (Ok tt, ws') /\ same_frame ws ws' /\
    forall r c,
      cell_at ws' r c
      = if decide ((n, letter_value L) = (r, c))
        then set_value v (cell_at ws n (letter_value L))
        else cell_at ws r c.
Proof.
  intros HL Hn.
  assert (Hc : 1 <= letter_value L).
  { simpl in HL. destruct HL as [<-|[<-|[<-|[<-|[<-|[]]]]]]; vm_compute; discriminate. }
  eexists. split; [| split].
  - unfold ws_setitem. rewrite coordinate_of_str by (assumption || lia).
    unfold lift. erewrite bind_ok by reflexivity. simpl.
    rewrite (bind_ok _ _ _ _ _ (get_cell_ok _ _ ws Hn)). reflexivity.
  - split; reflexivity.
  - intros r c. now rewrite cell_at_insert.
Qed.

(** One iteration of the loop over the entries. *)
Lemma write_author_ok (i : Z) (row : Entry) (d : string) ws :
  0 <= i -> _permute_date (date row) = Ok d ->
  exists ws',
    write_author (i, row) ws = (Ok tt, ws') /\ same_frame ws ws' /\
    row_holds ws' (TABLE4_START_ROW + i) row d /\
    forall r c, r <> TABLE4_START_ROW + i -> cell_at ws' r c = cell_at ws r c.
Proof.
  intros Hi Hd.
  assert (Hn : 1 <= TABLE4_START_ROW + i) by (unfold TABLE4_START_ROW; lia).
  set (n := TABLE4_START_ROW + i) in *.
  destruct (ws_setitem_ok "A" n (PyStr "A:") ws ltac:(simpl; tauto) Hn)
    as (ws1 & R1 & F1 & A1).
  destruct (ws_setitem_ok "B" n (PyStr (author row)) ws1 ltac:(simpl; tauto) Hn)
    as (ws2 & R2 & F2 & A2).
  destruct (ws_setitem_ok "C" n (PyStr (affil row)) ws2 ltac:(simpl; tauto) Hn)
    as (ws3 & R3 & F3 & A3).
  destruct (ws_setitem_ok "D" n (PyStr "") ws3 ltac:(simpl; tauto) Hn)
    as (ws4 & R4 & F4 & A4).
  destruct (ws_setitem_ok "E" n (PyStr d) ws4 ltac:(simpl; tauto) Hn)
    as (ws5 & R5 & F5 & A5).
  change (letter_value "A") with 1 in A1. change (letter_value "B") with 2 in A2.
  change (letter_value "C") with 3 in A3. change (letter_value "D") with 4 in A4.
  change (letter_value "E") with 5 in A5.
  exists ws5. split; [| split; [| split]].
  - unfold write_author. fold n.
    change ("A" +:+ str n) with (String "A" (str n)).
    change ("B" +:+ str n) with (String "B" (str n)).
    change ("C" +:+ str n) with (String "C" (str n)).
    change ("D" +:+ str n) with (String "D" (str n)).
    change ("E" +:+ str n) with (String "E" (str n)).
    rewrite (bind_ok _ _ _ _ _ R1), (bind_ok _ _ _ _ _ R2),
            (bind_ok _ _ _ _ _ R3), (bind_ok _ _ _ _ _ R4).
    rewrite Hd. unfold lift. erewrite bind_ok by reflexivity. exact R5.
  - repeat (eapply same_frame_trans; [eassumption |]). apply same_frame_refl.
  - unfold row_holds. rewrite !A5, !A4, !A3, !A2, !A1.
    repeat split; repeat destruct (decide _) as [?|?];
      try reflexivity; congruence.
  - intros r c Hne. rewrite !A5, !A4, !A3, !A2, !A1.
    repeat destruct (decide _) as [?|?]; congruence.
Qed.

(** The loop over the entries, from index [i0] on. *)
Lemma write_authors_from_ok (df : list Entry) (i0 : Z) ws :
  0 <= i0 -> Forall date_ok df ->
  exists ws',
    for_ (iterrows_from i0 df) write_author ws = (Ok tt, ws') /\
    same_frame ws ws' /\
    (forall (k : nat) row, df !! k = Some row ->
       exists d, _permute_date (date row) = Ok d /\
                 row_holds ws' (TABLE4_START_ROW + i0 + Z.of_nat k) row d) /\
    forall r c, r < TABLE4_START_ROW + i0 -> cell_at ws' r c = cell_at ws r c.
Proof.
  intros Hi0 Hall. revert i0 ws Hi0.
  induction df as [|row df IH]; intros i0 ws Hi0.
  - exists ws. split; [reflexivity |]. split; [apply same_frame_refl |].
    split; [intros k row Hk; discriminate | reflexivity].
  - apply Forall_cons in Hall as [Hrow Hall].
    destruct (permute_date_ok (date row) Hrow) as [d Hd].
    destruct (write_author_ok i0 row d ws Hi0 Hd) as (ws1 & R1 & F1 & Hrow1 & Hfr1).
    destruct (IH Hall (i0 + 1) ws1 ltac:(lia)) as (ws2 & R2 & F2 & Hrows2 & Hfr2).
    exists ws2. split; [| split; [| split]].
    + simpl. now rewrite (bind_ok _ _ _ _ _ R1).
    + eapply same_frame_trans; eassumption.
    + intros [|k] row' Hk; simpl in Hk.
      * inversion Hk; subst row'. exists d. split; [exact Hd |].
        replace (TABLE4_START_ROW + i0 + Z.of_nat 0) with (TABLE4_START_ROW + i0)
          by lia.
        unfold row_holds in *. rewrite !Hfr2 by lia. exact Hrow1.
      * destruct (Hrows2 k row' Hk) as (d' & Hd' & Hh). exists d'.
        split; [exact Hd' |].
        replace (TABLE4_START_ROW + i0 + Z.of_nat (S k))
          with (TABLE4_START_ROW + (i0 + 1) + Z.of_nat k) by lia.
        exact Hh.
    + intros r c Hr. rewrite Hfr2 by lia. apply Hfr1. lia.
Qed.

End Running.

(* ===================================================================== *)
(** ** Deleting and re-adding the tables *)
(* ===================================================================== *)

Section Tables.

Lemma elem_of_table_names ws (k : string) :
  k ∈ table_names ws <-> is_Some (tables ws !! k).
Proof.
  unfold table_names. rewrite list_elem_of_In, in_map_iff. split.
  - intros [[k' t] [E Hin]]. simpl in E. subst k'.
    apply list_elem_of_In, elem_of_map_to_list in Hin. now exists t.
  - intros [t Ht]. exists (k, t). split; [reflexivity |].
    now apply list_elem_of_In, elem_of_map_to_list.
Qed.

Lemma existsb_false {A} (f : A -> bool) (l : list A) :
  (forall x, x ∈ l -> f x = false) -> existsb f l = false.
Proof.
  intros H. apply Bool.not_true_iff_false. intros E.
  apply existsb_exists in E as [x [Hin Hx]].
  apply list_elem_of_In in Hin. rewrite (H x Hin) in Hx. discriminate.
Qed.

Lemma no_clash_spec (names : list string) (key k : string) :
  no_clash names key = true -> k ∈ names -> k <> key ->
  String.eqb (lower key) (lower k) = false.
Proof.
  unfold no_clash. rewrite forallb_forall. intros H Hin Hne.
  apply list_elem_of_In in Hin. specialize (H k Hin).
  apply orb_true_iff in H as [H|H].
  - apply String.eqb_eq in H. contradiction.
  - now apply negb_true_iff in H.
Qed.

(** The display name [key] is free once the table filed under [key] is gone:
    every table name still on the worksheet was there before and is not
    [key]. *)
Lemma duplicate_name_free (wb : Workbook) (sheet ws : Worksheet) (key : string) :
  names_free wb sheet key = true ->
  (forall k, k ∈ table_names ws -> k ∈ table_names sheet /\ k <> key) ->
  _duplicate_name (tables_elsewhere wb) (defined_names wb) ws key = false.
Proof.
  unfold names_free, _duplicate_name. intros Hfree Hnames.
  apply andb_true_iff in Hfree as [Hfree Hdef].
  apply andb_true_iff in Hfree as [Hclash Helse].
  apply negb_true_iff in Hdef, Helse.
  rewrite existsb_app, Helse, Hdef, !orb_false_r.
  apply existsb_false. intros k Hk.
  destruct (Hnames k Hk) as [Hin Hne].
  exact (no_clash_spec _ _ _ Hclash Hin Hne).
Qed.

Lemma alt_table_vendor (wb : Workbook) (sheet : Worksheet) rest (key : string) t :
  worksheets wb = sheet :: rest -> title sheet = TEMPLATE_SHEET ->
  tables sheet !! key = Some t ->
  alt_table wb key = Ok t.
Proof.
  intros Hws Htitle Ht. unfold alt_table, wb_getitem. rewrite Hws. simpl.
  rewrite Htitle, String.eqb_refl. unfold tables_getitem. now rewrite Ht.
Qed.

(** The last block of [add_author_affiliations] on the vendor template: both
    tables come back under their own names with the computed references, and
    nothing else changes. *)
Lemma readd_tables_ok (wb : Workbook) (sheet : Worksheet) rest (n : Z) ws :
  vendor_template wb sheet rest -> tables ws = tables sheet ->
  exists ws',
    readd_tables wb (tables_elsewhere wb) (defined_names wb) n ws = (Ok tt, ws') /\
    title ws' = title ws /\ _cells ws' = _cells ws /\
    tables ws'
    = <["TableD" :=
          mkTable "TableD" "TableD"
            ("A" +:+ str (TABLE4_START_ROW - 1) +:+ ":E"
             +:+ str (TABLE4_START_ROW + n + NUMBER_OF_EXISTING_ROWS_IN_TABLE4 - 1))]>
        (delete "TableD"
          (<["TableD5" :=
               mkTable "TableD5" "TableD5"
                 ("A" +:+ str (58 + n + NUMBER_OF_EXISTING_ROWS_IN_TABLE4) +:+ ":E"
                  +:+ str (68 + n + NUMBER_OF_EXISTING_ROWS_IN_TABLE4))]>
             (delete "TableD5" (tables ws)))).
Proof.
  intros (Hws & (Htitle & _ & _) & (td & HtD & HnD & HdD) & (t5 & Ht5 & Hn5 & Hd5)
          & HfD & Hf5) Htab.
  pose proof (alt_table_vendor wb sheet rest _ _ Hws Htitle Ht5) as Halt5.
  pose proof (alt_table_vendor wb sheet rest _ _ Hws Htitle HtD) as HaltD.
  unfold readd_tables, bind, lift, tables_delitem, add_table.
  rewrite Htab, Ht5, Halt5. cbn [tables title _cells name displayName ref].
  rewrite Hn5, Hd5.
  rewrite (duplicate_name_free wb sheet _ "TableD5" Hf5).
  2:{ intros k Hk. apply elem_of_table_names in Hk. cbn [tables] in Hk.
      destruct (decide (k = "TableD5")) as [->|Hne].
      - rewrite lookup_delete_eq in Hk. now destruct Hk.
      - rewrite lookup_delete_ne in Hk by congruence.
        split; [now apply elem_of_table_names | exact Hne]. }
  cbn [tables title _cells name displayName ref].
  rewrite lookup_insert_ne by discriminate.
  rewrite lookup_delete_ne by discriminate.
  rewrite HtD, HaltD. cbn [tables title _cells name displayName ref].
  rewrite HnD, HdD.
  rewrite (duplicate_name_free wb sheet _ "TableD" HfD).
  2:{ intros k Hk. apply elem_of_table_names in Hk. cbn [tables] in Hk.
      destruct (decide (k = "TableD")) as [->|Hne].
      - rewrite lookup_delete_eq in Hk. now destruct Hk.
      - rewrite lookup_delete_ne in Hk by congruence.
        split; [| exact Hne]. apply elem_of_table_names.
        destruct (decide (k = "TableD5")) as [->|Hne5]; [now exists t5 |].
        rewrite lookup_insert_ne in Hk by congruence.
        rewrite lookup_delete_ne in Hk by congruence.
        exact Hk. }
  eexists. split; [reflexivity |].
  cbn [tables title _cells]. repeat split.
Qed.

End Tables.

(* ===================================================================== *)
(** ** What no statement touches *)
(* ===================================================================== *)

Section Frames.

Lemma keeps_title_bind {A B} (m : W A) (k : A -> W B) :
  keeps_title m -> (forall a, keeps_title (k a)) -> keeps_title (bind m k).
Proof.
  intros Hm Hk ws. unfold bind. specialize (Hm ws).
  destruct (m ws) as [[a|e] ws1]; simpl in *; [| exact Hm].
  now rewrite Hk.
Qed.

Lemma keeps_title_for {A} (l : list A) (body : A -> W unit) :
  (forall x, keeps_title (body x)) -> keeps_title (for_ l body).
Proof.
  intros Hb. induction l as [|x l IH]; [intros ws; reflexivity |].
  simpl. apply keeps_title_bind; [apply Hb | intros _; exact IH].
Qed.

Lemma keeps_title_lift {A} (r : result A) : keeps_title (lift r).
Proof. intros ws. reflexivity. Qed.

Lemma keeps_title_ws_cell (row column : Z) : keeps_title (ws_cell row column).
Proof. intros ws. unfold ws_cell. now destruct (_ || _). Qed.

Lemma keeps_title_get_cell (row column : Z) : keeps_title (_get_cell row column).
Proof. intros ws. unfold _get_cell. now destruct (_ <? _). Qed.

Lemma keeps_title_put_cell (row column : Z) c : keeps_title (put_cell row column c).
Proof. intros ws. reflexivity. Qed.

Lemma keeps_title_insert_rows (idx amount : Z) : keeps_title (insert_rows idx amount).
Proof. intros ws. unfold insert_rows. now destruct (existsb _ _). Qed.

Lemma keeps_title_tables_delitem (key : string) : keeps_title (tables_delitem key).
Proof. intros ws. unfold tables_delitem. now destruct (tables ws !! key). Qed.

Lemma keeps_title_add_table elsewhere defined t :
  keeps_title (add_table elsewhere defined t).
Proof. intros ws. unfold add_table. now destruct (_duplicate_name _ _ _ _). Qed.

(** Decomposes a statement into the library calls it is made of. *)
Ltac title_frame :=
  repeat first
    [ apply keeps_title_lift | apply keeps_title_ws_cell
    | apply keeps_title_get_cell
    | apply keeps_title_put_cell | apply keeps_title_insert_rows
    | apply keeps_title_tables_delitem | apply keeps_title_add_table
    | apply keeps_title_bind | apply keeps_title_for | intro ].

Lemma keeps_title_copy_range (range_str : string) (offset : Z) :
  keeps_title (copy_range range_str offset).
Proof. unfold copy_range, copy_cell. title_frame. Qed.

Lemma keeps_title_ws_setitem (key : string) v : keeps_title (ws_setitem key v).
Proof. unfold ws_setitem. title_frame. Qed.

Lemma keeps_title_write_author ir : keeps_title (write_author ir).
Proof.
  destruct ir as [i row]. unfold write_author.
  repeat first [ apply keeps_title_ws_setitem | apply keeps_title_lift
               | apply keeps_title_bind | intro ].
Qed.

Lemma keeps_title_empty_first_rows : keeps_title empty_first_rows.
Proof.
  unfold empty_first_rows.
  apply keeps_title_for. intros i. apply keeps_title_for. intros j.
  apply keeps_title_bind; [apply keeps_title_ws_cell |].
  intros c. apply keeps_title_put_cell.
Qed.

Lemma keeps_title_style_rows (n : Z) : keeps_title (style_rows n).
Proof.
  unfold style_rows. apply keeps_title_for. intros i.
  apply keeps_title_copy_range.
Qed.

Lemma keeps_title_write_authors (df : list Entry) : keeps_title (write_authors df).
Proof.
  unfold write_authors. apply keeps_title_for. exact keeps_title_write_author.
Qed.

Lemma keeps_title_readd_tables wb_alt elsewhere defined (n : Z) :
  keeps_title (readd_tables wb_alt elsewhere defined n).
Proof. unfold readd_tables. title_frame. Qed.

Lemma keeps_title_expand_sheet wb_alt elsewhere defined df :
  keeps_title (expand_sheet wb_alt elsewhere defined df).
Proof.
  unfold expand_sheet.
  apply keeps_title_bind; [exact keeps_title_empty_first_rows | intros _].
  apply keeps_title_bind; [apply keeps_title_copy_range | intros _].
  apply keeps_title_bind; [apply keeps_title_insert_rows | intros _].
  apply keeps_title_bind; [apply keeps_title_style_rows | intros _].
  apply keeps_title_bind; [apply keeps_title_write_authors | intros _].
  apply keeps_title_readd_tables.
Qed.

Lemma keeps_cells_bind {A B} (m : W A) (k : A -> W B) :
  keeps_cells m -> (forall a, keeps_cells (k a)) -> keeps_cells (bind m k).
Proof.
  intros Hm Hk ws. unfold bind. specialize (Hm ws).
  destruct (m ws) as [[a|e] ws1]; simpl in *; [| exact Hm].
  now rewrite Hk.
Qed.

Lemma keeps_cells_lift {A} (r : result A) : keeps_cells (lift r).
Proof. intros ws. reflexivity. Qed.

Lemma keeps_cells_tables_delitem (key : string) : keeps_cells (tables_delitem key).
Proof. intros ws. unfold tables_delitem. now destruct (tables ws !! key). Qed.

Lemma keeps_cells_add_table elsewhere defined t :
  keeps_cells (add_table elsewhere defined t).
Proof. intros ws. unfold add_table. now destruct (_duplicate_name _ _ _ _). Qed.

Lemma keeps_cells_readd_tables wb_alt elsewhere defined n :
  keeps_cells (readd_tables wb_alt elsewhere defined n).
Proof.
  unfold readd_tables.
  repeat first [ apply keeps_cells_lift | apply keeps_cells_tables_delitem
               | apply keeps_cells_add_table | apply keeps_cells_bind | intro ].
Qed.

End Frames.

(* ===================================================================== *)
(** ** The expansion as a whole *)
(* ===================================================================== *)

Section Expansion.

Lemma cell_at_same_cells ws ws' r c :
  _cells ws' = _cells ws -> cell_at ws' r c = cell_at ws r c.
Proof. intros H. unfold cell_at. now rewrite H. Qed.

(** What [add_author_affiliations] makes of the template worksheet. *)
Lemma expand_sheet_ok (wb : Workbook) (sheet : Worksheet) rest (df : list Entry) :
  vendor_template wb sheet rest -> Forall date_ok df ->
  exists ws',
    expand_sheet wb (tables_elsewhere wb) (defined_names wb) df sheet = (Ok tt, ws') /\
    title ws' = title sheet /\
    (forall (k : nat) row, df !! k = Some row ->
       exists d, _permute_date (date row) = Ok d /\
                 row_holds ws' (TABLE4_START_ROW + Z.of_nat k) row d) /\
    tables ws'
    = <["TableD" :=
          mkTable "TableD" "TableD"
            ("A" +:+ str (TABLE4_START_ROW - 1) +:+ ":E"
             +:+ str (TABLE4_START_ROW + num_to_add_of df
                      + NUMBER_OF_EXISTING_ROWS_IN_TABLE4 - 1))]>
        (delete "TableD"
          (<["TableD5" :=
               mkTable "TableD5" "TableD5"
                 ("A" +:+ str (58 + num_to_add_of df
                               + NUMBER_OF_EXISTING_ROWS_IN_TABLE4) +:+ ":E"
                  +:+ str (68 + num_to_add_of df
                           + NUMBER_OF_EXISTING_ROWS_IN_TABLE4))]>
             (delete "TableD5" (tables sheet)))).
Proof.
  intros Hv Hdates. unfold expand_sheet.
  set (n := num_to_add_of df).
  assert (Hn : 0 <= n + NUMBER_OF_EXISTING_ROWS_IN_TABLE4).
  { unfold n, num_to_add_of, len. lia. }
  destruct (keeps_frame_empty_first_rows sheet) as (ws1 & R1 & F1).
  destruct (keeps_frame_copy_last_row n Hn ws1) as (ws2 & R2 & F2).
  destruct (keeps_frame_insert_rows (TABLE4_START_ROW + 2) n
              ltac:(unfold TABLE4_START_ROW; lia) ws2) as (ws3 & R3 & F3).
  destruct (keeps_frame_style_rows n ws3) as (ws4 & R4 & F4).
  destruct (write_authors_from_ok df 0 ws4 ltac:(lia) Hdates)
    as (ws5 & R5 & F5 & Hrows & _).
  assert (F : same_frame sheet ws5).
  { repeat (eapply same_frame_trans; [eassumption |]). apply same_frame_refl. }
  destruct F as [Ftitle Ftables].
  destruct (readd_tables_ok wb sheet rest n ws5 Hv Ftables)
    as (ws6 & R6 & Htitle6 & Hcells6 & Htables6).
  exists ws6. split; [| split; [| split]].
  - rewrite (bind_ok _ _ _ _ _ R1), (bind_ok _ _ _ _ _ R2).
    unfold add_rows. rewrite (bind_ok _ _ _ _ _ R3), (bind_ok _ _ _ _ _ R4).
    unfold write_authors, iterrows. rewrite (bind_ok _ _ _ _ _ R5). exact R6.
  - congruence.
  - intros k row Hk. destruct (Hrows k row Hk) as (d & Hd & Hh).
    exists d. split; [exact Hd |].
    replace (TABLE4_START_ROW + 0 + Z.of_nat k)
      with (TABLE4_START_ROW + Z.of_nat k) in Hh by lia.
    unfold row_holds in *. now rewrite !(cell_at_same_cells ws5 ws6 _ _ Hcells6).
  - now rewrite Htables6, Ftables.
Qed.

Lemma obj_eqb_eq (a b : obj) : obj_eqb a b = true <-> a = b.
Proof.
  destruct a, b; simpl; split; try discriminate; try reflexivity.
  - intros H. apply String.eqb_eq in H. now subst.
  - intros H. inversion H. apply String.eqb_refl.
  - intros H. apply Z.eqb_eq in H. now subst.
  - intros H. inversion H. apply Z.eqb_refl.
Qed.

(** The check, read off the first worksheet. *)
Lemma check_first_sheet (self : COA) (sheet : Worksheet) rest :
  worksheets (wb self) = sheet :: rest ->
  _check_is_template self
  = if negb (String.eqb (title sheet) TEMPLATE_SHEET)
    then (Raise (ValueError
                   "The first sheet of the workbook is not the NSF COA template"),
          self)
    else if negb (obj_eqb (value (cell_at sheet TABLE4_START_ROW 2))
                          (PyStr TABLE4_TEMPLATE_PERSON))
    then (Raise (ValueError
                   "The first row of the table 4 is not the template person"),
          self)
    else match tables sheet !! "TableD" with
         | None => (Raise (KeyError "TableD"), self)
         | Some t =>
             if negb (String.eqb (ref t) "A51:E56")
             then (Raise (ValueError "The table 4 is not in the correct location"),
                   self)
             else (Ok tt, self)
         end.
Proof.
  intros Hws. unfold _check_is_template, sheetnames, wb_getitem.
  rewrite Hws. cbn [map lookup list_lookup List.find].
  destruct (String.eqb (title sheet) TEMPLATE_SHEET) eqn:Et; [| reflexivity].
  cbn [negb].
  change (ws_getitem ("B" +:+ str TABLE4_START_ROW) sheet)
    with (Ok (cell_at sheet TABLE4_START_ROW 2), sheet).
  cbv beta iota.
  destruct (negb (obj_eqb _ _)); [reflexivity |].
  unfold tables_getitem. now destruct (tables sheet !! "TableD").
Qed.

Lemma check_state (self : COA) : (_check_is_template self).2 = self.
Proof.
  destruct (worksheets (wb self)) as [|sheet rest] eqn:Hws.
  - unfold _check_is_template, sheetnames. now rewrite Hws.
  - rewrite (check_first_sheet self sheet rest Hws).
    repeat match goal with
           | |- context [if ?b then _ else _] => destruct b
           | |- context [match ?x with Some _ => _ | None => _ end] => destruct x
           end; reflexivity.
Qed.

Lemma check_ok_inv (self : COA) :
  (_check_is_template self).1 = Ok tt ->
  exists sheet rest, worksheets (wb self) = sheet :: rest /\ passes_checks sheet.
Proof.
  destruct (worksheets (wb self)) as [|sheet rest] eqn:Hws.
  - unfold _check_is_template, sheetnames. rewrite Hws. discriminate.
  - rewrite (check_first_sheet self sheet rest Hws). intros H.
    exists sheet, rest. split; [reflexivity |]. unfold passes_checks.
    destruct (String.eqb_spec (title sheet) TEMPLATE_SHEET) as [Et|Et];
      [| discriminate H].
    cbn [negb] in H.
    destruct (obj_eqb _ _) eqn:Ev; [| discriminate H].
    apply obj_eqb_eq in Ev. cbn [negb] in H.
    destruct (tables sheet !! "TableD") as [t|]; [| discriminate H].
    destruct (String.eqb_spec (ref t) "A51:E56") as [Er|Er]; [| discriminate H].
    split; [exact Et |]. split; [exact Ev |]. now exists t.
Qed.

Lemma check_passes (self : COA) (sheet : Worksheet) rest :
  worksheets (wb self) = sheet :: rest -> passes_checks sheet ->
  _check_is_template self = (Ok tt, self).
Proof.
  intros Hws (Htitle & Hperson & t & Ht & Href).
  unfold _check_is_template, sheetnames, wb_getitem. rewrite Hws. simpl.
  rewrite Htitle, String.eqb_refl. simpl.
  change (cell_at sheet _ _) with (cell_at sheet TABLE4_START_ROW 2).
  rewrite Hperson. unfold tables_getitem. rewrite Ht, Href. reflexivity.
Qed.

(** A whole run on the vendor template: it returns, writes the output file
    and leaves the expanded worksheet in the workbook. *)
Lemma init_ok (out_filename : string) (template : Workbook) (sheet : Worksheet)
    rest (csv : list Entry) (disk : gmap string Workbook) :
  vendor_template template sheet rest -> Forall date_ok csv ->
  exists ws',
    expand_sheet template (tables_elsewhere template) (defined_names template)
                 csv sheet = (Ok tt, ws') /\
    __init__ out_filename template csv disk
    = let wb' := {| worksheets := ws' :: rest;
                    defined_names := defined_names template |} in
      mkRun (Ok tt) {| wb := wb'; wb_alt := template; df := csv |}
            (<[out_filename := wb']> disk).
Proof.
  intros Hv Hdates.
  destruct (expand_sheet_ok template sheet rest csv Hv Hdates)
    as (ws' & Hrun & Htitle & _).
  exists ws'. split; [exact Hrun |].
  destruct Hv as (Hws & Hchecks & _).
  unfold __init__.
  rewrite (check_passes {| wb := template; wb_alt := template; df := [] |}
             sheet rest Hws Hchecks).
  unfold add_author_affiliations, wb_getitem. cbn [wb wb_alt df].
  rewrite Hws. cbn [List.find].
  destruct Hchecks as (Ht & _). rewrite Ht, String.eqb_refl.
  rewrite Hrun. cbn [put_sheet]. rewrite Htitle, Ht, String.eqb_refl.
  reflexivity.
Qed.

End Expansion.

(* ===================================================================== *)
(** ** The claims about the run *)
(* ===================================================================== *)

Lemma sample_is_vendor_template : vendor_template sample_template sample_sheet [].
Proof.
  split; [reflexivity |]. split.
  - split; [reflexivity |]. split; [reflexivity |].
    eexists. split; [vm_compute; reflexivity | reflexivity].
  - split; [| split; [| split; reflexivity]].
    + eexists. split; [vm_compute; reflexivity | split; reflexivity].
    + eexists. split; [vm_compute; reflexivity | split; reflexivity].
Qed.

Lemma sample_dates_ok (n : nat) : Forall date_ok (take n sample_entries).
Proof.
  apply Forall_take. unfold sample_entries, date_ok.
  repeat constructor.
Qed.






(** C3, as the code has it.  On the vendor template and L >= 5 entries, both
    tables are deleted and filed again under their own names: "TableD" keeps
    its first row 51 and its last row moves from 56 to 56 + (L - 5);
    "TableD5" is put at rows 63 + (L - 5) to 73 + (L - 5), columns A to E,
    whatever reference it had in the template; no other table changes. *)
Theorem tables_readded
    (out_filename : string) (template : Workbook) (sheet : Worksheet) rest
    (csv : list Entry) (disk : gmap string Workbook) :
  vendor_template template sheet rest -> Forall date_ok csv -> 5 <= len csv ->
  exists sheet',
    outcome (__init__ out_filename template csv disk) = Ok tt /\
    worksheets (wb (self_after (__init__ out_filename template csv disk)))
    = sheet' :: rest /\
    (exists t, tables sheet' !! "TableD" = Some t /\
               name t = "TableD" /\ displayName t = "TableD" /\
               range_boundaries (ref t) = Some (1, 51, 5, 56 + (len csv - 5))) /\
    (exists t, tables sheet' !! "TableD5" = Some t /\
               name t = "TableD5" /\ displayName t = "TableD5" /\
               range_boundaries (ref t)
               = Some (1, 63 + (len csv - 5), 5, 73 + (len csv - 5))) /\
    forall key, key <> "TableD" -> key <> "TableD5" ->
                tables sheet' !! key = tables sheet !! key.
Proof.
  intros Hv Hdates HL.
  destruct (init_ok out_filename template sheet rest csv disk Hv Hdates)
    as (ws' & Hrun & Hinit).
  destruct (expand_sheet_ok template sheet rest csv Hv Hdates)
    as (ws'' & Hrun' & _ & _ & Htables).
  rewrite Hrun in Hrun'. inversion Hrun'; subst ws''. clear Hrun'.
  exists ws'. rewrite Hinit. cbn [outcome self_after wb worksheets].
  split; [reflexivity |]. split; [reflexivity |].
  rewrite Htables. unfold num_to_add_of, TABLE4_START_ROW,
    NUMBER_OF_EXISTING_ROWS_IN_TABLE4.
  split; [| split].
  - eexists. split; [apply lookup_insert_eq |]. cbn [name displayName ref].
    split; [reflexivity |]. split; [reflexivity |].
    rewrite range_boundaries_A_E by (unfold len; lia). do 2 f_equal; lia.
  - eexists. split.
    + rewrite lookup_insert_ne by discriminate.
      rewrite lookup_delete_ne by discriminate. apply lookup_insert_eq.
    + cbn [name displayName ref].
      split; [reflexivity |]. split; [reflexivity |].
      rewrite range_boundaries_A_E by (unfold len; lia).
      f_equal. f_equal; [f_equal; f_equal; lia | lia].
  - intros key HD H5.
    rewrite lookup_insert_ne by congruence.
    rewrite lookup_delete_ne by congruence.
    rewrite lookup_insert_ne by congruence.
    now rewrite lookup_delete_ne by congruence.
Qed.

Lemma tables_readded_witness :
  exists sheet',
    outcome (__init__ "coa.xlsx" sample_template sample_entries ∅) = Ok tt /\
    worksheets (wb (self_after (__init__ "coa.xlsx" sample_template
                                         sample_entries ∅)))
    = sheet' :: [] /\
    (exists t, tables sheet' !! "TableD" = Some t /\
               name t = "TableD" /\ displayName t = "TableD" /\
               range_boundaries (ref t)
               = Some (1, 51, 5, 56 + (len sample_entries - 5))) /\
    (exists t, tables sheet' !! "TableD5" = Some t /\
               name t = "TableD5" /\ displayName t = "TableD5" /\
               range_boundaries (ref t)
               = Some (1, 63 + (len sample_entries - 5), 5,
                       73 + (len sample_entries - 5))) /\
    forall key, key <> "TableD" -> key <> "TableD5" ->
                tables sheet' !! key = tables sample_sheet !! key.
Proof.
  apply (tables_readded "coa.xlsx" sample_template sample_sheet []
           sample_entries ∅).
  - exact sample_is_vendor_template.
  - exact (sample_dates_ok 8).
  - vm_compute. discriminate.
Defined.

(** C3, as stated, fails: with the eight sample entries (three rows added)
    "TableD" comes back as A51:E59.  Its last row has moved by three, its
    first row has not: the region shifted by three rows would be A54:E59. *)
Lemma tabled_first_row_stays :
  len sample_entries - 5 = 3 /\
  exists sheet' t,
    worksheets (wb (self_after (__init__ "coa.xlsx" sample_template
                                         sample_entries ∅))) = [sheet'] /\
    tables sample_sheet !! "TableD" = Some (mkTable "TableD" "TableD" "A51:E56") /\
    tables sheet' !! "TableD" = Some t /\
    ref t = "A51:E59" /\ ref t <> "A54:E59".
Proof.
  split; [reflexivity |].
  eexists. eexists. split; [vm_compute; reflexivity |].
  split; [vm_compute; reflexivity |].
  split; [vm_compute; reflexivity |].
  split; [reflexivity | discriminate].
Qed.

Lemma bind_ok_inv {A B} (m : W A) (k : A -> W B) ws b ws' :
  bind m k ws = (Ok b, ws') ->
  exists a ws1, m ws = (Ok a, ws1) /\ k a ws1 = (Ok b, ws').
Proof.
  unfold bind. destruct (m ws) as [[a|e] ws1]; [| discriminate].
  intros H. now exists a, ws1.
Qed.

Lemma write_author_inv (i : Z) (row : Entry) ws ws' :
  0 <= i -> write_author (i, row) ws = (Ok tt, ws') -> date_ok row.
Proof.
  intros Hi H. unfold date_ok.
  pose proof (permute_date_cases (date row)) as Hc.
  destruct (_permute_date (date row)) as [d|e] eqn:Ed; [exact Hc |].
  exfalso. unfold write_author in H.
  do 4 (apply bind_ok_inv in H as (? & ? & _ & H)).
  apply bind_ok_inv in H as (? & ? & H & _).
  rewrite Ed in H. discriminate H.
Qed.

Lemma write_authors_inv (df : list Entry) (i0 : Z) ws ws' :
  0 <= i0 -> for_ (iterrows_from i0 df) write_author ws = (Ok tt, ws') ->
  Forall date_ok df.
Proof.
  revert i0 ws. induction df as [|row df IH]; intros i0 ws Hi0 H; [constructor |].
  simpl in H. apply bind_ok_inv in H as ([] & ws1 & H1 & H2).
  constructor.
  - exact (write_author_inv i0 row ws ws1 Hi0 H1).
  - exact (IH (i0 + 1) ws1 ltac:(lia) H2).
Qed.

(** Whenever the expansion returns, the first data row holds the first
    author. *)
Lemma expand_sheet_first_author wb_alt elsewhere defined (row : Entry) rows ws ws' :
  expand_sheet wb_alt elsewhere defined (row :: rows) ws = (Ok tt, ws') ->
  title ws' = title ws /\
  value (cell_at ws' TABLE4_START_ROW 2) = PyStr (author row).
Proof.
  intros H. split.
  - pose proof (keeps_title_expand_sheet wb_alt elsewhere defined (row :: rows) ws)
      as Ht.
    now rewrite H in Ht.
  - unfold expand_sheet in H.
    apply bind_ok_inv in H as (_ & ws1 & _ & H).
    apply bind_ok_inv in H as (_ & ws2 & _ & H).
    apply bind_ok_inv in H as (_ & ws3 & _ & H).
    apply bind_ok_inv in H as (_ & ws4 & _ & H).
    apply bind_ok_inv in H as ([] & ws5 & Hw & H).
    unfold write_authors, iterrows in Hw.
    pose proof (write_authors_inv _ 0 ws4 ws5 ltac:(lia) Hw) as Hdates.
    destruct (write_authors_from_ok (row :: rows) 0 ws4 ltac:(lia) Hdates)
      as (ws5' & Hw' & _ & Hrows & _).
    rewrite Hw in Hw'. inversion Hw'; subst ws5'. clear Hw'.
    destruct (Hrows 0%nat row eq_refl) as (d & _ & Hh).
    pose proof (keeps_cells_readd_tables wb_alt elsewhere defined
                  (num_to_add_of (row :: rows)) ws5) as Hc.
    rewrite H in Hc. simpl in Hc.
    rewrite (cell_at_same_cells ws5 ws' _ _ Hc).
    replace (TABLE4_START_ROW + 0 + Z.of_nat 0) with TABLE4_START_ROW in Hh by lia.
    destruct Hh as (_ & Hb & _). exact Hb.
Qed.

(** A run that returned went through the checks and the expansion. *)
Lemma init_inv (out_filename : string) (template : Workbook) (csv : list Entry)
    (disk : gmap string Workbook) :
  outcome (__init__ out_filename template csv disk) = Ok tt ->
  exists sheet rest sheet',
    worksheets template = sheet :: rest /\ passes_checks sheet /\
    expand_sheet template (tables_elsewhere template) (defined_names template)
                 csv sheet = (Ok tt, sheet') /\
    __init__ out_filename template csv disk
    = let wb' := {| worksheets := sheet' :: rest;
                    defined_names := defined_names template |} in
      mkRun (Ok tt) {| wb := wb'; wb_alt := template; df := csv |}
            (<[out_filename := wb']> disk).
Proof.
  unfold __init__.
  set (self0 := {| wb := template; wb_alt := template; df := [] |}).
  pose proof (check_state self0) as Hs. pose proof (check_ok_inv self0) as Hinv.
  destruct (_check_is_template self0) as [[[]|e] s1]; [| discriminate].
  simpl in Hs. subst s1.
  destruct (Hinv eq_refl) as (sheet & rest & Hws & Hchecks).
  cbn [wb self0] in Hws.
  unfold add_author_affiliations, wb_getitem. cbn [wb wb_alt df self0].
  rewrite Hws. cbn [List.find].
  pose proof Hchecks as (Ht & _). rewrite Ht, String.eqb_refl.
  pose proof (keeps_title_expand_sheet template (tables_elsewhere template)
                (defined_names template) csv sheet) as Htitle.
  destruct (expand_sheet template (tables_elsewhere template)
              (defined_names template) csv sheet) as [[[]|e] sheet'] eqn:Hrun;
    [| discriminate].
  simpl in Htitle. intros _.
  exists sheet, rest, sheet'. split; [reflexivity |]. split; [exact Hchecks |].
  split; [exact Hrun |].
  cbn [put_sheet]. rewrite Htitle, Ht, String.eqb_refl. reflexivity.
Qed.

(** C7.  When a run on entries whose first author is not the template person
    has returned, it has written its workbook to the output file; and a
    second run on that file, provided the file reads back with the value B52
    had, fails the first or the second check: it raises the ValueError of
    that check, expands nothing and writes nothing. *)
Theorem second_run_fails_validation
    (out1 out2 : string) (template loaded : Workbook) (csv csv2 : list Entry)
    (disk : gmap string Workbook) (row : Entry) rows :
  csv = row :: rows -> author row <> TABLE4_TEMPLATE_PERSON ->
  outcome (__init__ out1 template csv disk) = Ok tt ->
  first_author_reads_back
    (wb (self_after (__init__ out1 template csv disk))) loaded ->
  disk_after (__init__ out1 template csv disk) !! out1
  = Some (wb (self_after (__init__ out1 template csv disk))) /\
  exists msg,
    __init__ out2 loaded csv2 (disk_after (__init__ out1 template csv disk))
    = mkRun (Raise (ValueError msg))
            {| wb := loaded; wb_alt := loaded; df := [] |}
            (disk_after (__init__ out1 template csv disk)) /\
    (msg = "The first sheet of the workbook is not the NSF COA template"
     \/ msg = "The first row of the table 4 is not the template person").
Proof.
  intros -> Hauthor Hok.
  destruct (init_inv out1 template (row :: rows) disk Hok)
    as (sheet & rest & sheet' & Hws & (Ht & _) & Hrun & ->).
  cbn [disk_after self_after wb].
  intros (v & Hsaved & Hloaded).
  unfold first_b52 in Hsaved, Hloaded. cbn [worksheets] in Hsaved.
  destruct (worksheets loaded) as [|s2 r2] eqn:Hl; [discriminate |].
  assert (Hb52 : value (cell_at s2 TABLE4_START_ROW 2)
                 = value (cell_at sheet' TABLE4_START_ROW 2)) by congruence.
  split; [apply lookup_insert_eq |].
  destruct (expand_sheet_first_author _ _ _ _ _ _ _ Hrun) as [_ Hb].
  unfold __init__.
  rewrite (check_first_sheet {| wb := loaded; wb_alt := loaded; df := [] |}
             s2 r2 Hl).
  destruct (String.eqb_spec (title s2) TEMPLATE_SHEET) as [Et|Et]; cbn [negb].
  - rewrite Hb52, Hb.
    destruct (obj_eqb (PyStr (author row)) (PyStr TABLE4_TEMPLATE_PERSON)) eqn:E.
    + apply obj_eqb_eq in E. congruence.
    + cbn [negb]. eexists. split; [reflexivity | now right].
  - eexists. split; [reflexivity | now left].
Qed.

Lemma second_run_fails_validation_witness :
  disk_after (__init__ "coa.xlsx" sample_template sample_entries ∅) !! "coa.xlsx"
  = Some (wb (self_after (__init__ "coa.xlsx" sample_template sample_entries ∅))) /\
  exists msg,
    __init__ "coa2.xlsx"
      (wb (self_after (__init__ "coa.xlsx" sample_template sample_entries ∅)))
      sample_entries
      (disk_after (__init__ "coa.xlsx" sample_template sample_entries ∅))
    = mkRun (Raise (ValueError msg))
            {| wb := wb (self_after (__init__ "coa.xlsx" sample_template
                                              sample_entries ∅));
               wb_alt := wb (self_after (__init__ "coa.xlsx" sample_template
                                                  sample_entries ∅));
               df := [] |}
            (disk_after (__init__ "coa.xlsx" sample_template sample_entries ∅)) /\
    (msg = "The first sheet of the workbook is not the NSF COA template"
     \/ msg = "The first row of the table 4 is not the template person").
Proof.
  apply (second_run_fails_validation "coa.xlsx" "coa2.xlsx" sample_template
           (wb (self_after (__init__ "coa.xlsx" sample_template sample_entries ∅)))
           sample_entries sample_entries ∅
           (mkEntry "Abbott, B." "LIGO Laboratory" "2021/03/15")
           (tail sample_entries)).
  - reflexivity.
  - discriminate.
  - vm_compute. reflexivity.
  - exists (PyStr "Abbott, B."). vm_compute. split; reflexivity.
Defined.

(* ===================================================================== *)
(** ** Inserting the rows *)
(* ===================================================================== *)

Section Inserting.

Lemma shift_row_inj (amount : Z) : Inj (=) (=) (shift_row amount).
Proof.
  intros [r c] [r' c'] H. unfold shift_row in H. simpl in H.
  inversion H. f_equal. lia.
Qed.

(** Visiting creates blank cells only: what the sheet shows stays. *)
Lemma lookup_materialise (ks : list (Z * Z)) (m : gmap (Z * Z) Cell) (k : Z * Z) :
  default blank (materialise ks m !! k) = default blank (m !! k).
Proof.
  induction ks as [|k0 ks IH]; [reflexivity |].
  simpl. destruct (materialise ks m !! k0) eqn:E; [exact IH |].
  rewrite lookup_insert. destruct (decide (k0 = k)) as [->|]; [| exact IH].
  rewrite <- IH, E. reflexivity.
Qed.

(** Where the cells are after moving by a positive [amount]. *)
Lemma lookup_move_rows (idx amount : Z) (m : gmap (Z * Z) Cell) (r c : Z) :
  0 < amount ->
  move_rows idx amount m !! (r, c)
  = if decide (r < idx) then m !! (r, c)
    else if decide (r < idx + amount) then None
    else m !! (r - amount, c).
Proof.
  intros Ha. unfold move_rows.
  destruct (Z.eqb_spec amount 0) as [E0|_]; [lia |].
  rewrite lookup_union.
  replace (r, c) with (shift_row amount (r - amount, c)) at 1
    by (unfold shift_row; simpl; f_equal; lia).
  rewrite lookup_kmap, !map_lookup_filter.
  destruct (decide (r < idx)) as [Hlt|Hge].
  - destruct (m !! (r - amount, c)) as [x|]; simpl.
    + rewrite option_guard_False by (simpl; lia). simpl.
      destruct (m !! (r, c)) as [y|]; simpl; [| reflexivity].
      now rewrite option_guard_True by (simpl; lia).
    + destruct (m !! (r, c)) as [y|]; simpl; [| reflexivity].
      now rewrite option_guard_True by (simpl; lia).
  - assert (Hright : (m !! (r, c) ≫= fun x =>
                        guard (((r, c), x).1.1 < idx);; Some x) = None).
    { destruct (m !! (r, c)) as [y|]; simpl; [| reflexivity].
      now rewrite option_guard_False by (simpl; lia). }
    rewrite Hright.
    destruct (decide (r < idx + amount)) as [Hin|Hout].
    + destruct (m !! (r - amount, c)) as [x|]; simpl; [| reflexivity].
      now rewrite option_guard_False by (simpl; lia).
    + destruct (m !! (r - amount, c)) as [x|]; simpl; [| reflexivity].
      now rewrite option_guard_True by (simpl; lia).
  - apply shift_row_inj.
Qed.

(** Where the cells are after moving by 0: the moved ones are gone. *)
Lemma lookup_move_rows_zero (idx : Z) (m : gmap (Z * Z) Cell) (r c : Z) :
  move_rows idx 0 m !! (r, c) = if decide (r < idx) then m !! (r, c) else None.
Proof.
  unfold move_rows. change (0 =? 0) with true. cbv iota.
  rewrite map_lookup_filter.
  destruct (m !! (r, c)) as [y|]; simpl.
  - destruct (decide (r < idx)).
    + now rewrite option_guard_True by (simpl; lia).
    + now rewrite option_guard_False by (simpl; lia).
  - now destruct (decide (r < idx)).
Qed.

Lemma insert_rows_inserts (idx amount : Z) ws :
  0 <= idx -> 0 < amount ->
  exists ws',
    insert_rows idx amount ws = (Ok tt, ws') /\ same_frame ws ws' /\
    rows_inserted_at idx amount ws ws'.
Proof.
  intros Hidx Ha. rewrite (insert_rows_runs idx amount ws Hidx).
  eexists. split; [reflexivity |]. split; [split; reflexivity |].
  intros r c. unfold cell_at. cbn [_cells].
  rewrite lookup_move_rows by exact Ha.
  destruct (decide (r < idx)); [apply lookup_materialise |].
  destruct (decide (r < idx + amount)); [reflexivity |].
  apply lookup_materialise.
Qed.

(** With nothing to insert, [insert_rows] erases the sheet from row [idx] on. *)
Lemma insert_rows_zero_erases (idx : Z) ws :
  0 <= idx ->
  exists ws',
    insert_rows idx 0 ws = (Ok tt, ws') /\ same_frame ws ws' /\
    forall r c,
      cell_at ws' r c = if decide (r < idx) then cell_at ws r c else blank.
Proof.
  intros Hidx. rewrite (insert_rows_runs idx 0 ws Hidx).
  eexists. split; [reflexivity |]. split; [split; reflexivity |].
  intros r c. unfold cell_at. cbn [_cells].
  rewrite lookup_move_rows_zero.
  destruct (decide (r < idx)); [apply lookup_materialise | reflexivity].
Qed.

End Inserting.

(** C4 fails on the code, by an index that is one too high.  The claim has
    the blank rows start at row 53, the second data row; the statement is
    [sheet.insert_rows(TABLE4_START_ROW + 2, num_to_add)], which inserts
    before row 54.  On the sample template with six entries (one row to add)
    the blank row is row 54 and row 53 still carries the second template row;
    the loop that follows styles rows 53 .. 52+n all the same, so in the
    workbook the run builds row 53 has the style of row 52 and the inserted
    row 54, which holds the third entry, has the style of a blank cell.  With
    exactly five entries there is nothing to insert, and the call erases
    every cell from row 54 on, the heading in A63 included. *)
Theorem rows_added_one_row_late :
  (exists ws',
     add_rows (num_to_add_of (take 6 sample_entries))
              (sample_before_insertion (take 6 sample_entries)) = (Ok tt, ws') /\
     rows_inserted_at 54 1 (sample_before_insertion (take 6 sample_entries)) ws' /\
     cell_at ws' 54 1 = blank /\
     cell_at ws' 53 1
     = set_value PyNone (cell_at sample_sheet 53 1) /\
     cell_at ws' 53 1 <> blank) /\
  (exists sheet',
     outcome (__init__ "coa.xlsx" sample_template (take 6 sample_entries) ∅)
     = Ok tt /\
     worksheets (wb (self_after (__init__ "coa.xlsx" sample_template
                                          (take 6 sample_entries) ∅)))
     = [sheet'] /\
     value (cell_at sheet' 54 2) = PyStr "Chandra, S." /\
     style_of (cell_at sheet' 53 2) = style_of (cell_at sample_sheet 52 2) /\
     style_of (cell_at sheet' 54 2) = style_of blank /\
     style_of (cell_at sheet' 54 2) <> style_of (cell_at sample_sheet 52 2)) /\
  (exists ws',
     add_rows (num_to_add_of (take 5 sample_entries))
              (sample_before_insertion (take 5 sample_entries)) = (Ok tt, ws') /\
     cell_at (sample_before_insertion (take 5 sample_entries)) 63 1 <> blank /\
     forall r c, 54 <= r -> cell_at ws' r c = blank).
Proof.
  split; [| split].
  - destruct (insert_rows_inserts 54 1
                (sample_before_insertion (take 6 sample_entries))
                ltac:(lia) ltac:(lia)) as (ws' & R & _ & A).
    exists ws'. split; [exact R |]. split; [exact A |].
    rewrite !A. split; [reflexivity |].
    split; [vm_compute; reflexivity | vm_compute; discriminate].
  - eexists. split; [vm_compute; reflexivity |].
    split; [vm_compute; reflexivity |].
    split; [vm_compute; reflexivity |].
    split; [vm_compute; reflexivity |].
    split; [vm_compute; reflexivity | vm_compute; discriminate].
  - destruct (insert_rows_zero_erases 54
                (sample_before_insertion (take 5 sample_entries)) ltac:(lia))
      as (ws' & R & _ & A).
    exists ws'. split; [exact R |].
    split; [vm_compute; discriminate |].
    intros r c Hr. rewrite A. now rewrite decide_False by lia.
Qed.

(* ===================================================================== *)
(** ** copy_range *)
(* ===================================================================== *)

(** C9, as the code has it.  For a range string that names the cells
    [c1..c2] x [r1..r2], with source and destination rows on the sheet (rows
    1 to 1048576), and an offset that is either at most 0 or larger than the
    height of the range minus one, [copy_range] returns; each destination
    cell then has the value, font, alignment, border, fill and number format
    its source cell had before the call and keeps its own protection, and
    every other cell, the title and the tables are as before. *)
Theorem copy_range_copies_and_frames
    (range_str : string) (offset : Z) ws (c1 r1 c2 r2 : Z) :
  range_boundaries range_str = Some (c1, r1, c2, r2) ->
  1 <= r1 -> r2 <= 1048576 ->
  1 <= r1 + offset -> r2 + offset <= 1048576 ->
  offset <= 0 \/ r2 - r1 < offset ->
  exists ws',
    copy_range range_str offset ws = (Ok tt, ws') /\ same_frame ws ws' /\
    (forall r c, r1 <= r <= r2 -> c1 <= c <= c2 ->
       cell_at ws' (r + offset) c
       = copied (cell_at ws r c) (cell_at ws (r + offset) c)) /\
    (forall r c, ~ (r1 <= r - offset <= r2 /\ c1 <= c <= c2) ->
       cell_at ws' r c = cell_at ws r c).
Proof.
  intros Hrb Hr _ Hd _ Hoff.
  destruct (copy_range_ok range_str offset ws c1 r1 c2 r2 Hrb Hr Hd Hoff)
    as (ws' & Hrun & Hfr & Hat).
  exists ws'. split; [exact Hrun |]. split; [exact Hfr |]. split.
  - intros r c Hrow Hcol. rewrite Hat.
    rewrite decide_True by (split; lia).
    now replace (r + offset - offset) with r by lia.
  - intros r c Hout. rewrite Hat. now rewrite decide_False.
Qed.

Lemma copy_range_copies_and_frames_witness :
  exists ws',
    copy_range "A57:E57" 9 sample_sheet = (Ok tt, ws') /\
    same_frame sample_sheet ws' /\
    (forall r c, 57 <= r <= 57 -> 1 <= c <= 5 ->
       cell_at ws' (r + 9) c
       = copied (cell_at sample_sheet r c) (cell_at sample_sheet (r + 9) c)) /\
    (forall r c, ~ (57 <= r - 9 <= 57 /\ 1 <= c <= 5) ->
       cell_at ws' r c = cell_at sample_sheet r c).
Proof.
  apply (copy_range_copies_and_frames "A57:E57" 9 sample_sheet 1 57 5 57).
  - reflexivity.
  - lia.
  - lia.
  - lia.
  - lia.
  - right. lia.
Defined.

(** C9, as stated for every range and every offset, fails in two ways.  With
    a range of two rows and offset 1 the second source cell is overwritten
    before it is read: B54 receives what B52 held, not what B53 held.  With an
    offset that leads above row 1 the call raises and copies nothing. *)
Lemma copy_range_overlap_and_bounds :
  (exists ws',
      copy_range "B52:B53" 1 sample_sheet = (Ok tt, ws') /\
      value (cell_at sample_sheet 52 2) = PyStr "Alphaman, Lin" /\
      value (cell_at sample_sheet 53 2) = PyStr "Betaman, Lin" /\
      value (cell_at ws' 54 2) = PyStr "Alphaman, Lin") /\
  copy_range "A1:A2" (-1) sample_sheet
  = (Raise (ValueError "Row or column values must be at least 1"), sample_sheet).
Proof.
  split.
  - eexists. split; [vm_compute; reflexivity |].
    split; [vm_compute; reflexivity |].
    split; vm_compute; reflexivity.
  - vm_compute. reflexivity.
Qed.

(* ===================================================================== *)
(** ** Further properties of the date reformatting *)
(* ===================================================================== *)

(** X1.  Whenever [_permute_date] returns, the input splits at "/" into at
    least three pieces a, b, c, ..., and the result is b/c/a, built from
    the first three of them; it has exactly two separators. *)
Theorem permute_date_result_has_two_slashes (s t : string) :
  _permute_date s = Ok t ->
  exists a b c rest,
    split slash s = a :: b :: c :: rest /\
    s = join slash (a :: b :: c :: rest) /\
    t = b +:+ "/" +:+ c +:+ "/" +:+ a /\
    count slash t = 2%nat.
Proof.
  unfold _permute_date. intros H.
  pose proof (split_sep_free slash s) as Hall.
  pose proof (join_split slash s) as Hj.
  destruct (split slash s) as [|c0 [|c1 [|c2 l]]]; try discriminate.
  inversion H; subst t. clear H.
  inversion Hall as [|? ? H0 Hall1]; subst.
  inversion Hall1 as [|? ? H1 Hall2]; subst.
  inversion Hall2 as [|? ? H2 _]; subst.
  exists c0, c1, c2, l. split; [reflexivity |]. split; [now symmetry |].
  split; [reflexivity |].
  apply (count_join slash [c1; c2; c0]). repeat constructor; assumption.
Qed.

Lemma permute_date_result_has_two_slashes_witness :
  exists a b c rest,
    split slash "a/b/c/d/e" = a :: b :: c :: rest /\
    "a/b/c/d/e" = join slash (a :: b :: c :: rest) /\
    "b/c/a" = b +:+ "/" +:+ c +:+ "/" +:+ a /\
    count slash "b/c/a" = 2%nat.
Proof.
  apply (permute_date_result_has_two_slashes "a/b/c/d/e" "b/c/a"). reflexivity.
Defined.

(** X2.  On a string with exactly two separators, three applications of
    [_permute_date] give the string back; so two applications undo one. *)
Theorem permute_date_three_times (s : string) :
  count slash s = 2%nat ->
  exists t u,
    _permute_date s = Ok t /\ _permute_date t = Ok u /\ _permute_date u = Ok s.
Proof.
  intros H.
  destruct (split_two_slashes s H) as (a & b & c & Ha & Hb & Hc & _ & ->).
  exists (join slash [b; c; a]), (join slash [c; a; b]).
  split; [| split].
  - exact (permute_date_join a b c [] Ha Hb Hc (List.Forall_nil _)).
  - exact (permute_date_join b c a [] Hb Hc Ha (List.Forall_nil _)).
  - exact (permute_date_join c a b [] Hc Ha Hb (List.Forall_nil _)).
Qed.

Lemma permute_date_three_times_witness :
  exists t u,
    _permute_date "2022/06/01" = Ok t /\ _permute_date t = Ok u /\
    _permute_date u = Ok "2022/06/01".
Proof. apply permute_date_three_times. reflexivity. Defined.

(* ===================================================================== *)
(** ** Further properties of copy_range *)
(* ===================================================================== *)

Section Preserving.

Context (I : Worksheet -> Worksheet -> Prop).
Hypothesis I_refl : forall ws, I ws ws.
Hypothesis I_trans : forall ws1 ws2 ws3, I ws1 ws2 -> I ws2 ws3 -> I ws1 ws3.

Lemma preserves_lift {A} (r : result A) : preserves I (lift r).
Proof. intros ws. apply I_refl. Qed.

Lemma preserves_ws_cell (row column : Z) : preserves I (ws_cell row column).
Proof. intros ws. unfold ws_cell. destruct (_ || _); apply I_refl. Qed.

Lemma preserves_bind {A B} (m : W A) (k : A -> W B) :
  preserves I m -> (forall a, preserves I (k a)) -> preserves I (bind m k).
Proof.
  intros Hm Hk ws. unfold bind. specialize (Hm ws).
  destruct (m ws) as [[a|e] ws1]; simpl in *; [| exact Hm].
  exact (I_trans _ _ _ Hm (Hk a ws1)).
Qed.

Lemma preserves_for {A} (l : list A) (body : A -> W unit) :
  (forall x, preserves I (body x)) -> preserves I (for_ l body).
Proof.
  intros Hb. induction l as [|x l IH]; [intros ws; apply I_refl |].
  simpl. apply preserves_bind; [apply Hb | intros _; exact IH].
Qed.

(** Reading a cell and then assigning to a cell, when the assignment alone
    keeps the relation. *)
Lemma preserves_update (row column row' column' : Z) (f : Cell -> Cell) :
  (forall ws, I ws (put_cell row' column' (f (cell_at ws row column)) ws).2) ->
  preserves I (bind (ws_cell row column)
                    (fun c => put_cell row' column' (f c))).
Proof.
  intros H ws. unfold bind, ws_cell.
  destruct (_ || _); simpl; [apply I_refl | apply H].
Qed.

End Preserving.

Lemma same_protection_refl ws : same_protection ws ws.
Proof. split; [apply same_frame_refl | reflexivity]. Qed.

Lemma same_protection_trans ws1 ws2 ws3 :
  same_protection ws1 ws2 -> same_protection ws2 ws3 -> same_protection ws1 ws3.
Proof.
  intros [F1 P1] [F2 P2]. split; [eapply same_frame_trans; eassumption |].
  intros r c. now rewrite P2, P1.
Qed.

Lemma copy_cell_same_protection (offset : Z) (cell : Z * Z) :
  preserves same_protection (copy_cell offset cell).
Proof.
  intros ws. unfold copy_cell, bind, _get_cell, ws_cell, put_cell.
  destruct (cell.1 <? 1); simpl; [apply same_protection_refl |].
  destruct ((cell.1 + offset <? 1) || (cell.2 <? 1)); simpl;
    [apply same_protection_refl |].
  split; [split; reflexivity |].
  intros r c. rewrite cell_at_insert, cell_at_eta.
  destruct (decide _) as [E|]; [| reflexivity].
  inversion E; subst. reflexivity.
Qed.

(** X6.  However a call of [copy_range] ends, also when it raises half-way,
    the title and the tables of the worksheet are as before and every cell
    has kept its protection: the loop assigns value, font, alignment, border,
    fill and number format, and nothing else. *)
Theorem copy_range_never_touches_protection (range_str : string) (offset : Z) ws :
  same_protection ws (copy_range range_str offset ws).2.
Proof.
  revert ws. change (preserves same_protection (copy_range range_str offset)).
  unfold copy_range.
  apply (preserves_bind _ same_protection_trans).
  - apply preserves_lift. exact same_protection_refl.
  - intros rows.
    apply (preserves_for _ same_protection_refl same_protection_trans).
    intros row.
    apply (preserves_for _ same_protection_refl same_protection_trans).
    intros cell. apply copy_cell_same_protection.
Qed.

(** X3.  A range whose last row lies above its first row, or whose last
    column lies left of its first column (such as "B2:A1"), has no cells:
    [copy_range] returns and the worksheet is as before, whatever the
    offset. *)
Theorem copy_range_empty_range
    (range_str : string) (offset : Z) ws (c1 r1 c2 r2 : Z) :
  range_boundaries range_str = Some (c1, r1, c2, r2) ->
  r2 < r1 \/ c2 < c1 ->
  copy_range range_str offset ws = (Ok tt, ws).
Proof.
  intros Hrb Hempty. unfold copy_range, rows_from_range. rewrite Hrb.
  unfold lift. erewrite bind_ok by reflexivity.
  destruct Hempty as [Hr|Hc].
  - now rewrite (seqZ_nil r1) by lia.
  - rewrite (seqZ_nil c1) by lia. simpl.
    induction (seqZ r1 (r2 - r1 + 1)) as [|row rows IH]; [reflexivity |].
    simpl. erewrite bind_ok by reflexivity. exact IH.
Qed.

Lemma copy_range_empty_range_witness :
  copy_range "B2:A1" 3 sample_sheet = (Ok tt, sample_sheet).
Proof.
  apply (copy_range_empty_range "B2:A1" 3 sample_sheet 2 2 1 1).
  - reflexivity.
  - left. lia.
Defined.

(** X4.  When the range has cells and the row [offset] below its first row
    is not on the sheet (row number below 1), [copy_range] raises ValueError
    at the first cell and the worksheet is as before: nothing has been
    copied. *)
Theorem copy_range_raises_off_sheet
    (range_str : string) (offset : Z) ws (c1 r1 c2 r2 : Z) :
  range_boundaries range_str = Some (c1, r1, c2, r2) ->
  1 <= r1 <= r2 -> c1 <= c2 ->
  r1 + offset < 1 ->
  copy_range range_str offset ws
  = (Raise (ValueError "Row or column values must be at least 1"), ws).
Proof.
  intros Hrb Hr Hc Hoff.
  pose proof (range_boundaries_col_pos _ _ _ _ _ Hrb) as Hc1.
  unfold copy_range, rows_from_range. rewrite Hrb.
  unfold lift. erewrite bind_ok by reflexivity.
  rewrite (seqZ_cons r1) by lia. rewrite (seqZ_cons c1) by lia.
  cbn [map for_].
  apply bind_raise. apply bind_raise.
  unfold copy_cell. cbn [fst snd].
  rewrite (bind_ok _ _ _ _ _ (get_cell_ok r1 c1 ws ltac:(lia))).
  apply bind_raise. apply ws_cell_raises. lia.
Qed.

Lemma copy_range_raises_off_sheet_witness :
  copy_range "A1:E2" (-1) sample_sheet
  = (Raise (ValueError "Row or column values must be at least 1"), sample_sheet).
Proof.
  apply (copy_range_raises_off_sheet "A1:E2" (-1) sample_sheet 1 1 5 2).
  - reflexivity.
  - lia.
  - lia.
  - lia.
Defined.

Lemma copied_same (x : Cell) : copied x x = x.
Proof. now destruct x. Qed.

(** X5.  For a range whose rows are on the sheet (rows 1 to 1048576), with
    offset 0 every cell is copied onto itself: [copy_range] returns and the
    worksheet shows the same cells, title and tables as before. *)
Theorem copy_range_offset_zero
    (range_str : string) ws (c1 r1 c2 r2 : Z) :
  range_boundaries range_str = Some (c1, r1, c2, r2) ->
  1 <= r1 -> r2 <= 1048576 ->
  exists ws',
    copy_range range_str 0 ws = (Ok tt, ws') /\ same_frame ws ws' /\
    forall r c, cell_at ws' r c = cell_at ws r c.
Proof.
  intros Hrb Hr _.
  destruct (copy_range_ok range_str 0 ws c1 r1 c2 r2 Hrb Hr ltac:(lia)
              ltac:(left; lia)) as (ws' & Hrun & Hfr & Hat).
  exists ws'. split; [exact Hrun |]. split; [exact Hfr |].
  intros r c. rewrite Hat. destruct (decide _); [| reflexivity].
  replace (r - 0) with r by lia. apply copied_same.
Qed.

Lemma copy_range_offset_zero_witness :
  exists ws',
    copy_range "A51:E57" 0 sample_sheet = (Ok tt, ws') /\
    same_frame sample_sheet ws' /\
    forall r c, cell_at ws' r c = cell_at sample_sheet r c.
Proof.
  apply (copy_range_offset_zero "A51:E57" sample_sheet 1 51 5 57).
  - reflexivity.
  - lia.
  - lia.
Defined.

(* ===================================================================== *)
(** ** Further properties of the checks and of failing runs *)
(* ===================================================================== *)

(** X7.  [_check_is_template] returns normally exactly when the workbook has
    a first worksheet that passes the three checks, and it never changes the
    object. *)
Theorem check_accepts_exactly (self : COA) :
  ((_check_is_template self).1 = Ok tt <->
   exists sheet rest,
     worksheets (wb self) = sheet :: rest /\ passes_checks sheet) /\
  (_check_is_template self).2 = self.
Proof.
  split; [split |].
  - apply check_ok_inv.
  - intros (sheet & rest & Hws & Hchecks).
    now rewrite (check_passes self sheet rest Hws Hchecks).
  - apply check_state.
Qed.

(** X8.  A template whose first worksheet has the right title and the
    template person in B52 but no table "TableD" is rejected with
    KeyError("TableD"), not with the ValueError of the third check; the
    workbook is untouched and nothing is written. *)
Theorem missing_tabled_is_key_error
    (out_filename : string) (template : Workbook) (csv : list Entry)
    (disk : gmap string Workbook) (sheet : Worksheet) rest :
  worksheets template = sheet :: rest ->
  title sheet = TEMPLATE_SHEET ->
  value (cell_at sheet TABLE4_START_ROW 2) = PyStr TABLE4_TEMPLATE_PERSON ->
  tables sheet !! "TableD" = None ->
  __init__ out_filename template csv disk
  = mkRun (Raise (KeyError "TableD"))
          {| wb := template; wb_alt := template; df := [] |} disk.
Proof.
  intros Hws Ht Hv Hno. unfold __init__.
  rewrite (check_first_sheet {| wb := template; wb_alt := template; df := [] |}
             sheet rest Hws).
  rewrite Ht, String.eqb_refl, Hv, Hno. reflexivity.
Qed.

Lemma missing_tabled_is_key_error_witness :
  __init__ "coa.xlsx" (sample_template_without "TableD") sample_entries ∅
  = mkRun (Raise (KeyError "TableD"))
      {| wb := sample_template_without "TableD";
         wb_alt := sample_template_without "TableD";
         df := [] |} ∅.
Proof.
  apply (missing_tabled_is_key_error "coa.xlsx"
           (sample_template_without "TableD") sample_entries ∅
           (sample_sheet_without "TableD") []).
  - reflexivity.
  - reflexivity.
  - reflexivity.
  - vm_compute. reflexivity.
Defined.

(** The expansion, split at the loop over the entries. *)
Lemma expand_sheet_split wb_alt elsewhere defined (df : list Entry) ws :
  exists ws4,
    same_frame ws ws4 /\
    expand_sheet wb_alt elsewhere defined df ws
    = (write_authors df
       >> readd_tables wb_alt elsewhere defined (num_to_add_of df)) ws4.
Proof.
  assert (Hn : 0 <= num_to_add_of df + NUMBER_OF_EXISTING_ROWS_IN_TABLE4).
  { unfold num_to_add_of, len. lia. }
  destruct (keeps_frame_empty_first_rows ws) as (ws1 & R1 & F1).
  destruct (keeps_frame_copy_last_row _ Hn ws1) as (ws2 & R2 & F2).
  destruct (keeps_frame_insert_rows (TABLE4_START_ROW + 2) (num_to_add_of df)
              ltac:(unfold TABLE4_START_ROW; lia) ws2)
    as (ws3 & R3 & F3).
  destruct (keeps_frame_style_rows (num_to_add_of df) ws3) as (ws4 & R4 & F4).
  exists ws4. split.
  - repeat (eapply same_frame_trans; [eassumption |]). apply same_frame_refl.
  - unfold expand_sheet.
    rewrite (bind_ok _ _ _ _ _ R1), (bind_ok _ _ _ _ _ R2).
    unfold add_rows. rewrite (bind_ok _ _ _ _ _ R3), (bind_ok _ _ _ _ _ R4).
    reflexivity.
Qed.

(** An entry whose date has fewer than two separators stops the loop with
    IndexError. *)
Lemma write_author_bad_date (i : Z) (row : Entry) ws :
  0 <= i -> ~ date_ok row ->
  exists ws',
    write_author (i, row) ws = (Raise (IndexError "list index out of range"), ws').
Proof.
  intros Hi Hbad.
  assert (Hn : 1 <= TABLE4_START_ROW + i) by (unfold TABLE4_START_ROW; lia).
  pose proof (permute_date_cases (date row)) as Hc.
  destruct (_permute_date (date row)) as [d|e] eqn:Ed; [contradiction |].
  destruct Hc as [_ ->].
  destruct (ws_setitem_ok "A" _ (PyStr "A:") ws ltac:(simpl; tauto) Hn)
    as (ws1 & R1 & _).
  destruct (ws_setitem_ok "B" _ (PyStr (author row)) ws1 ltac:(simpl; tauto) Hn)
    as (ws2 & R2 & _).
  destruct (ws_setitem_ok "C" _ (PyStr (affil row)) ws2 ltac:(simpl; tauto) Hn)
    as (ws3 & R3 & _).
  destruct (ws_setitem_ok "D" _ (PyStr "") ws3 ltac:(simpl; tauto) Hn)
    as (ws4 & R4 & _).
  exists ws4. unfold write_author.
  change ("A" +:+ str (TABLE4_START_ROW + i))
    with (String "A" (str (TABLE4_START_ROW + i))).
  change ("B" +:+ str (TABLE4_START_ROW + i))
    with (String "B" (str (TABLE4_START_ROW + i))).
  change ("C" +:+ str (TABLE4_START_ROW + i))
    with (String "C" (str (TABLE4_START_ROW + i))).
  change ("D" +:+ str (TABLE4_START_ROW + i))
    with (String "D" (str (TABLE4_START_ROW + i))).
  rewrite (bind_ok _ _ _ _ _ R1), (bind_ok _ _ _ _ _ R2),
          (bind_ok _ _ _ _ _ R3), (bind_ok _ _ _ _ _ R4).
  rewrite Ed. reflexivity.
Qed.

Lemma write_authors_bad_date (df : list Entry) (i0 : Z) ws :
  0 <= i0 -> Exists (fun e => ~ date_ok e) df ->
  exists ws',
    for_ (iterrows_from i0 df) write_author ws
    = (Raise (IndexError "list index out of range"), ws').
Proof.
  revert i0 ws. induction df as [|row df IH]; intros i0 ws Hi0 Hex.
  - now apply Exists_nil in Hex.
  - pose proof (permute_date_cases (date row)) as Hc.
    destruct (_permute_date (date row)) as [d|e] eqn:Ed.
    + destruct (write_author_ok i0 row d ws Hi0 Ed) as (ws1 & R1 & _).
      apply Exists_cons in Hex as [Hhead|Htail]; [contradiction |].
      destruct (IH (i0 + 1) ws1 ltac:(lia) Htail) as (ws' & R').
      exists ws'. simpl. now rewrite (bind_ok _ _ _ _ _ R1).
    + assert (Hbad : ~ date_ok row) by (unfold date_ok; lia).
      destruct (write_author_bad_date i0 row ws Hi0 Hbad) as (ws' & R').
      exists ws'. simpl. now rewrite (bind_raise _ _ _ _ _ R').
Qed.

(** A run on a workbook that passes the checks, read off the expansion of its
    first worksheet. *)
Lemma init_on_checked (out_filename : string) (template : Workbook)
    (sheet : Worksheet) rest (csv : list Entry) (disk : gmap string Workbook) :
  worksheets template = sheet :: rest -> passes_checks sheet ->
  __init__ out_filename template csv disk
  = let '(r, sheet') :=
      expand_sheet template (tables_elsewhere template) (defined_names template)
                   csv sheet in
    let wb' := {| worksheets := sheet' :: rest;
                  defined_names := defined_names template |} in
    match r with
    | Ok _ => mkRun (Ok tt) {| wb := wb'; wb_alt := template; df := csv |}
                    (<[out_filename := wb']> disk)
    | Raise e => mkRun (Raise e) {| wb := wb'; wb_alt := template; df := csv |}
                       disk
    end.
Proof.
  intros Hws Hchecks. unfold __init__.
  rewrite (check_passes {| wb := template; wb_alt := template; df := [] |}
             sheet rest Hws Hchecks).
  unfold add_author_affiliations, wb_getitem. cbn [wb wb_alt df].
  rewrite Hws. cbn [List.find].
  destruct Hchecks as (Ht & _). rewrite Ht, String.eqb_refl.
  pose proof (keeps_title_expand_sheet template (tables_elsewhere template)
                (defined_names template) csv sheet) as Htitle.
  destruct (expand_sheet template (tables_elsewhere template)
              (defined_names template) csv sheet) as [r sheet'].
  simpl in Htitle. cbn [put_sheet]. rewrite Htitle, Ht, String.eqb_refl.
  destruct r as [[]|e]; reflexivity.
Qed.

(** X9.  On a workbook that passes the checks and a data frame of strings,
    a date with fewer than two "/" separators makes the loop over the
    entries raise IndexError when it reaches that row; [wb.save] is then not
    reached and no file is written. *)
Theorem malformed_date_raises_without_output
    (out_filename : string) (template : Workbook) (sheet : Worksheet) rest
    (csv : list Entry) (disk : gmap string Workbook) :
  worksheets template = sheet :: rest -> passes_checks sheet ->
  Exists (fun e => ~ date_ok e) csv ->
  outcome (__init__ out_filename template csv disk)
  = Raise (IndexError "list index out of range") /\
  disk_after (__init__ out_filename template csv disk) = disk.
Proof.
  intros Hws Hchecks Hbad.
  rewrite (init_on_checked out_filename template sheet rest csv disk Hws Hchecks).
  destruct (expand_sheet_split template (tables_elsewhere template)
              (defined_names template) csv sheet) as (ws4 & _ & ->).
  destruct (write_authors_bad_date csv 0 ws4 ltac:(lia) Hbad) as (ws' & Hraise).
  unfold write_authors, iterrows.
  rewrite (bind_raise _ _ _ _ _ Hraise). split; reflexivity.
Qed.

Lemma malformed_date_raises_without_output_witness :
  outcome (__init__ "coa.xlsx" sample_template
             (sample_entries ++ [mkEntry "Ibn Sina" "Hamadan" "1037-06-22"]) ∅)
  = Raise (IndexError "list index out of range") /\
  disk_after (__init__ "coa.xlsx" sample_template
                (sample_entries ++ [mkEntry "Ibn Sina" "Hamadan" "1037-06-22"]) ∅)
  = ∅.
Proof.
  apply (malformed_date_raises_without_output "coa.xlsx" sample_template
           sample_sheet []).
  - reflexivity.
  - exact (proj1 (proj2 sample_is_vendor_template)).
  - apply Exists_app. right. apply Exists_cons_hd.
    unfold date_ok. vm_compute. lia.
Defined.

(** X10.  On a workbook that passes the three checks but has no table
    "TableD5", the run ends with KeyError("TableD5") and writes no file; by
    then the worksheet in memory has been expanded: its rows hold the
    entries. *)
Theorem missing_tabled5_raises_after_expansion
    (out_filename : string) (template : Workbook) (sheet : Worksheet) rest
    (csv : list Entry) (disk : gmap string Workbook) :
  worksheets template = sheet :: rest -> passes_checks sheet ->
  tables sheet !! "TableD5" = None -> Forall date_ok csv ->
  outcome (__init__ out_filename template csv disk) = Raise (KeyError "TableD5") /\
  disk_after (__init__ out_filename template csv disk) = disk /\
  exists sheet',
    worksheets (wb (self_after (__init__ out_filename template csv disk)))
    = sheet' :: rest /\
    tables sheet' = tables sheet /\
    forall (i : nat) row, csv !! i = Some row ->
      exists d, _permute_date (date row) = Ok d /\
                row_holds sheet' (TABLE4_START_ROW + Z.of_nat i) row d.
Proof.
  intros Hws Hchecks Hno Hdates.
  rewrite (init_on_checked out_filename template sheet rest csv disk Hws Hchecks).
  destruct (expand_sheet_split template (tables_elsewhere template)
              (defined_names template) csv sheet) as (ws4 & [_ F4] & ->).
  destruct (write_authors_from_ok csv 0 ws4 ltac:(lia) Hdates)
    as (ws5 & R5 & [_ F5] & Hrows & _).
  unfold write_authors, iterrows. rewrite (bind_ok _ _ _ _ _ R5).
  assert (Hdel : tables_delitem "TableD5" ws5 = (Raise (KeyError "TableD5"), ws5)).
  { unfold tables_delitem. now rewrite F5, F4, Hno. }
  unfold readd_tables. rewrite (bind_raise _ _ _ _ _ Hdel).
  split; [reflexivity |]. split; [reflexivity |].
  exists ws5. split; [reflexivity |]. split; [congruence |].
  intros i row Hi. destruct (Hrows i row Hi) as (d & Hd & Hh).
  exists d. split; [exact Hd |].
  now replace (TABLE4_START_ROW + 0 + Z.of_nat i)
    with (TABLE4_START_ROW + Z.of_nat i) in Hh by lia.
Qed.

Lemma missing_tabled5_raises_after_expansion_witness :
  outcome (__init__ "coa.xlsx" (sample_template_without "TableD5")
             sample_entries ∅)
  = Raise (KeyError "TableD5") /\
  disk_after (__init__ "coa.xlsx" (sample_template_without "TableD5")
                sample_entries ∅) = ∅ /\
  exists sheet',
    worksheets (wb (self_after (__init__ "coa.xlsx"
                                  (sample_template_without "TableD5")
                                  sample_entries ∅)))
    = sheet' :: [] /\
    tables sheet' = tables (sample_sheet_without "TableD5") /\
    forall (i : nat) row, sample_entries !! i = Some row ->
      exists d, _permute_date (date row) = Ok d /\
                row_holds sheet' (TABLE4_START_ROW + Z.of_nat i) row d.
Proof.
  apply (missing_tabled5_raises_after_expansion "coa.xlsx"
           (sample_template_without "TableD5")
           (sample_sheet_without "TableD5") [] sample_entries ∅).
  - reflexivity.
  - split; [reflexivity |]. split; [reflexivity |].
    eexists. split; [vm_compute; reflexivity | reflexivity].
  - vm_compute. reflexivity.
  - exact (sample_dates_ok 8).
Defined.

(** X11.  Fewer than five entries do not stop the run: on the
    vendor template it returns and writes the file; "TableD" is left as
    A51:E(51+L), "TableD5" as A(58+L):E(68+L), and rows 52 .. 51+L hold the
    entries. *)
Theorem fewer_than_five_entries
    (out_filename : string) (template : Workbook) (sheet : Worksheet) rest
    (csv : list Entry) (disk : gmap string Workbook) :
  vendor_template template sheet rest -> Forall date_ok csv -> len csv < 5 ->
  exists sheet',
    outcome (__init__ out_filename template csv disk) = Ok tt /\
    worksheets (wb (self_after (__init__ out_filename template csv disk)))
    = sheet' :: rest /\
    disk_after (__init__ out_filename template csv disk) !! out_filename
    = Some (wb (self_after (__init__ out_filename template csv disk))) /\
    (exists t, tables sheet' !! "TableD" = Some t /\
               range_boundaries (ref t) = Some (1, 51, 5, 51 + len csv)) /\
    (exists t, tables sheet' !! "TableD5" = Some t /\
               range_boundaries (ref t)
               = Some (1, 58 + len csv, 5, 68 + len csv)) /\
    forall (i : nat) row, csv !! i = Some row ->
      exists d, _permute_date (date row) = Ok d /\
                row_holds sheet' (52 + Z.of_nat i) row d.
Proof.
  intros Hv Hdates HL.
  destruct (init_ok out_filename template sheet rest csv disk Hv Hdates)
    as (ws' & Hrun & Hinit).
  destruct (expand_sheet_ok template sheet rest csv Hv Hdates)
    as (ws'' & Hrun' & _ & Hrows & Htables).
  rewrite Hrun in Hrun'. inversion Hrun'; subst ws''. clear Hrun'.
  exists ws'. rewrite Hinit. cbn [outcome self_after disk_after wb worksheets].
  split; [reflexivity |]. split; [reflexivity |].
  split; [apply lookup_insert_eq |].
  rewrite Htables. unfold num_to_add_of, TABLE4_START_ROW,
    NUMBER_OF_EXISTING_ROWS_IN_TABLE4.
  split; [| split; [| exact Hrows]].
  - eexists. split; [apply lookup_insert_eq |]. cbn [ref].
    rewrite range_boundaries_A_E by (unfold len; lia). do 2 f_equal; lia.
  - eexists. split.
    + rewrite lookup_insert_ne by discriminate.
      rewrite lookup_delete_ne by discriminate. apply lookup_insert_eq.
    + cbn [ref]. rewrite range_boundaries_A_E by (unfold len; lia).
      f_equal. f_equal; [f_equal; f_equal; lia | lia].
Qed.

Lemma fewer_than_five_entries_witness :
  exists sheet',
    outcome (__init__ "coa.xlsx" sample_template (take 2 sample_entries) ∅)
    = Ok tt /\
    worksheets (wb (self_after (__init__ "coa.xlsx" sample_template
                                         (take 2 sample_entries) ∅)))
    = sheet' :: [] /\
    disk_after (__init__ "coa.xlsx" sample_template (take 2 sample_entries) ∅)
      !! "coa.xlsx"
    = Some (wb (self_after (__init__ "coa.xlsx" sample_template
                                     (take 2 sample_entries) ∅))) /\
    (exists t, tables sheet' !! "TableD" = Some t /\
               range_boundaries (ref t)
               = Some (1, 51, 5, 51 + len (take 2 sample_entries))) /\
    (exists t, tables sheet' !! "TableD5" = Some t /\
               range_boundaries (ref t)
               = Some (1, 58 + len (take 2 sample_entries), 5,
                       68 + len (take 2 sample_entries))) /\
    forall (i : nat) row, take 2 sample_entries !! i = Some row ->
      exists d, _permute_date (date row) = Ok d /\
                row_holds sheet' (52 + Z.of_nat i) row d.
Proof.
  apply (fewer_than_five_entries "coa.xlsx" sample_template sample_sheet []
           (take 2 sample_entries) ∅).
  - exact sample_is_vendor_template.
  - exact (sample_dates_ok 2).
  - vm_compute. reflexivity.
Defined.

(* ===================================================================== *)
(** ** Where the cells end up *)
(* ===================================================================== *)

(** Case analysis on every decision the goal mentions. *)
Ltac decide_goal :=
  repeat match goal with
         | |- context [decide ?P] => destruct (decide P)
         end.

(** Turns an inequality of coordinates into one of rows or columns. *)
Ltac split_coordinates :=
  repeat match goal with
         | H : (?a, ?b) <> (?c, ?d) |- _ =>
             assert (a <> c \/ b <> d)
               by (destruct (Z.eq_dec a c);
                   [destruct (Z.eq_dec b d);
                    [exfalso; apply H; congruence | right; assumption]
                   | left; assumption]);
             clear H
         end.

Lemma same_styles_refl ws : same_styles ws ws.
Proof. split; [apply same_frame_refl | intros r c; split; reflexivity]. Qed.

Lemma same_styles_trans ws1 ws2 ws3 :
  same_styles ws1 ws2 -> same_styles ws2 ws3 -> same_styles ws1 ws3.
Proof.
  intros [F1 S1] [F2 S2]. split; [eapply same_frame_trans; eassumption |].
  intros r c. destruct (S1 r c) as [A1 B1]. destruct (S2 r c) as [A2 B2].
  split; congruence.
Qed.

Lemma ws_setitem_same_styles (key : string) (v : obj) :
  preserves same_styles (ws_setitem key v).
Proof.
  intros ws. unfold ws_setitem, bind, lift, _get_cell, put_cell.
  destruct (coordinate key) as [[r c]|e]; simpl; [| apply same_styles_refl].
  destruct (r <? 1); simpl; [apply same_styles_refl |].
  split; [split; reflexivity |].
  intros r' c'. rewrite cell_at_insert, cell_at_eta.
  destruct (decide _) as [E|]; [| split; reflexivity].
  inversion E; subst. split; reflexivity.
Qed.

Lemma write_author_same_styles (ir : Z * Entry) :
  preserves same_styles (write_author ir).
Proof.
  destruct ir as [i row]. unfold write_author.
  repeat (apply (preserves_bind _ same_styles_trans);
          [apply ws_setitem_same_styles | intros _]).
  apply (preserves_bind _ same_styles_trans).
  - apply preserves_lift. exact same_styles_refl.
  - intros d. apply ws_setitem_same_styles.
Qed.

(** X16.  The loop that writes the entries assigns values only: however it
    ends, also when a date makes it raise, every cell has the font,
    alignment, border, fill, number format and protection it had, and the
    title and the tables are as before. *)
Theorem write_authors_assigns_values_only (df : list Entry) ws :
  same_styles ws (write_authors df ws).2.
Proof.
  revert ws. change (preserves same_styles (write_authors df)).
  unfold write_authors.
  apply (preserves_for _ same_styles_refl same_styles_trans).
  exact write_author_same_styles.
Qed.

Lemma agree_outside_refl lo hi ws : agree_outside lo hi ws ws.
Proof. intros r c _. reflexivity. Qed.

Lemma agree_outside_trans lo hi ws1 ws2 ws3 :
  agree_outside lo hi ws1 ws2 -> agree_outside lo hi ws2 ws3 ->
  agree_outside lo hi ws1 ws3.
Proof. intros H1 H2 r c Hout. now rewrite H2, H1. Qed.

Lemma agree_outside_mono lo hi lo' hi' ws ws' :
  lo' <= lo -> hi <= hi' ->
  agree_outside lo hi ws ws' -> agree_outside lo' hi' ws ws'.
Proof. intros Hlo Hhi H r c Hout. apply H. intros [? ?]. apply Hout. lia. Qed.

Lemma letter_value_A_E (L : ascii) :
  In L ["A"; "B"; "C"; "D"; "E"]%char -> 1 <= letter_value L <= 5.
Proof.
  simpl. intros [<-|[<-|[<-|[<-|[<-|[]]]]]]; vm_compute; split; discriminate.
Qed.

Lemma ws_setitem_agree_outside (L : ascii) (n : Z) (v : obj) (lo hi : Z) :
  In L ["A"; "B"; "C"; "D"; "E"]%char -> 0 <= n -> lo <= n < hi ->
  preserves (agree_outside lo hi) (ws_setitem (String L (str n)) v).
Proof.
  intros HL Hn Hin ws. unfold ws_setitem.
  rewrite coordinate_of_str by assumption.
  unfold bind, lift, _get_cell, put_cell. cbn [fst snd].
  destruct (n <? 1); simpl; [apply agree_outside_refl |].
  intros r c Hout. rewrite cell_at_insert, cell_at_eta.
  destruct (decide _) as [E|]; [| reflexivity].
  inversion E; subst. exfalso. apply Hout.
  split; [exact Hin | now apply letter_value_A_E].
Qed.

Lemma write_author_agree_outside (i : Z) (row : Entry) (lo hi : Z) :
  0 <= i -> lo <= TABLE4_START_ROW + i < hi ->
  preserves (agree_outside lo hi) (write_author (i, row)).
Proof.
  intros Hi Hin.
  assert (Hn : 0 <= TABLE4_START_ROW + i) by (unfold TABLE4_START_ROW; lia).
  unfold write_author.
  change ("A" +:+ str (TABLE4_START_ROW + i))
    with (String "A" (str (TABLE4_START_ROW + i))).
  change ("B" +:+ str (TABLE4_START_ROW + i))
    with (String "B" (str (TABLE4_START_ROW + i))).
  change ("C" +:+ str (TABLE4_START_ROW + i))
    with (String "C" (str (TABLE4_START_ROW + i))).
  change ("D" +:+ str (TABLE4_START_ROW + i))
    with (String "D" (str (TABLE4_START_ROW + i))).
  change ("E" +:+ str (TABLE4_START_ROW + i))
    with (String "E" (str (TABLE4_START_ROW + i))).
  repeat (apply (preserves_bind _ (agree_outside_trans lo hi));
          [apply ws_setitem_agree_outside; [simpl; tauto | exact Hn | exact Hin]
          | intros _]).
  apply (preserves_bind _ (agree_outside_trans lo hi)).
  - apply preserves_lift. exact (agree_outside_refl lo hi).
  - intros d.
    apply ws_setitem_agree_outside; [simpl; tauto | exact Hn | exact Hin].
Qed.

(** The loop writes nothing outside columns A to E of the rows of the
    entries, however it ends. *)
Lemma write_authors_from_agree_outside (df : list Entry) (i0 : Z) :
  0 <= i0 ->
  preserves (agree_outside (TABLE4_START_ROW + i0)
                           (TABLE4_START_ROW + i0 + len df))
            (for_ (iterrows_from i0 df) write_author).
Proof.
  revert i0. induction df as [|row df IH]; intros i0 Hi0.
  - intros ws. apply agree_outside_refl.
  - assert (Hlen : len (row :: df) = 1 + len df)
      by (unfold len; simpl length; lia).
    assert (Hpos : 0 <= len df) by (unfold len; lia).
    rewrite Hlen. cbn [iterrows_from for_].
    apply (preserves_bind _ (agree_outside_trans _ _)).
    + apply write_author_agree_outside; lia.
    + intros _ ws.
      apply (agree_outside_mono (TABLE4_START_ROW + (i0 + 1))
               (TABLE4_START_ROW + (i0 + 1) + len df)); [lia | lia |].
      apply IH. lia.
Qed.

Lemma for_app {A} (l1 l2 : list A) (body : A -> W unit) ws :
  for_ (l1 ++ l2) body ws = (for_ l1 body >> for_ l2 body) ws.
Proof.
  revert ws. induction l1 as [|x l1 IH]; intros ws; [reflexivity |].
  cbn [app for_]. unfold bind.
  destruct (body x ws) as [[[]|e] ws1]; [| reflexivity].
  rewrite IH. reflexivity.
Qed.

Lemma set_value_twice (v : obj) (x : Cell) :
  set_value v (set_value v x) = set_value v x.
Proof. reflexivity. Qed.

Lemma copied_twice (x d : Cell) : copied x (copied x d) = copied x d.
Proof. reflexivity. Qed.

(** The inner loop of "empty the first two rows", after [m] columns. *)
Lemma clear_columns_ok (row : Z) (m : nat) ws :
  1 <= row ->
  exists ws',
    for_ (seqZ 0 (Z.of_nat m))
         (fun j => let* c := ws_cell row (j + 1) in
                   put_cell row (j + 1) (set_value PyNone c)) ws
    = (Ok tt, ws') /\ same_frame ws ws' /\
    forall r c,
      cell_at ws' r c
      = if decide (r = row /\ 1 <= c <= Z.of_nat m)
        then set_value PyNone (cell_at ws r c)
        else cell_at ws r c.
Proof.
  intros Hrow. induction m as [|m IH].
  - exists ws. split; [reflexivity |]. split; [apply same_frame_refl |].
    intros r c. decide_goal; first [lia | reflexivity].
  - destruct IH as (ws1 & R1 & F1 & A1).
    rewrite seqZ_S, for_app. rewrite (bind_ok _ _ _ _ _ R1).
    cbn [for_]. replace (0 + Z.of_nat m) with (Z.of_nat m) by lia.
    assert (Hc : 1 <= Z.of_nat m + 1) by lia.
    eexists. split; [| split].
    + rewrite (bind_ok _ _ _ _ _
                 (bind_ok _ _ _ _ _ (ws_cell_ok row _ ws1 Hrow Hc))).
      reflexivity.
    + destruct F1 as [Ft Fb]. split; simpl; assumption.
    + intros r c. rewrite cell_at_insert, cell_at_eta, !A1.
      decide_goal; simplify_eq; split_coordinates; first [lia | reflexivity].
Qed.

(** "Empty the first two rows of table 4", after [m] rows. *)
Lemma clear_rows_ok (m : nat) ws :
  exists ws',
    for_ (seqZ 0 (Z.of_nat m))
         (fun i => for_ (range 5)
            (fun j => let* c := ws_cell (TABLE4_START_ROW + i) (j + 1) in
                      put_cell (TABLE4_START_ROW + i) (j + 1)
                               (set_value PyNone c))) ws
    = (Ok tt, ws') /\ same_frame ws ws' /\
    forall r c,
      cell_at ws' r c
      = if decide (TABLE4_START_ROW <= r < TABLE4_START_ROW + Z.of_nat m
                   /\ 1 <= c <= 5)
        then set_value PyNone (cell_at ws r c)
        else cell_at ws r c.
Proof.
  induction m as [|m IH].
  - exists ws. split; [reflexivity |]. split; [apply same_frame_refl |].
    intros r c. decide_goal; first [lia | reflexivity].
  - destruct IH as (ws1 & R1 & F1 & A1).
    rewrite seqZ_S, for_app. rewrite (bind_ok _ _ _ _ _ R1).
    cbn [for_]. replace (0 + Z.of_nat m) with (Z.of_nat m) by lia.
    destruct (clear_columns_ok (TABLE4_START_ROW + Z.of_nat m) 5 ws1
                ltac:(unfold TABLE4_START_ROW; lia)) as (ws2 & R2 & F2 & A2).
    exists ws2. split; [| split].
    + unfold range. change 5 with (Z.of_nat 5) at 1.
      now rewrite (bind_ok _ _ _ _ _ R2).
    + eapply same_frame_trans; eassumption.
    + intros r c. rewrite A2, !A1. change (Z.of_nat 5) with 5.
      decide_goal; first [lia | reflexivity].
Qed.

(** X12.  "Empty the first two rows of table 4" always returns; it sets the
    values of A52:E53 to None and changes nothing else: these cells keep
    their style, and every other cell, the title and the tables are as
    before. *)
Theorem empty_first_rows_clears_values ws :
  exists ws',
    empty_first_rows ws = (Ok tt, ws') /\ same_frame ws ws' /\
    forall r c,
      cell_at ws' r c
      = if decide (52 <= r <= 53 /\ 1 <= c <= 5)
        then set_value PyNone (cell_at ws r c)
        else cell_at ws r c.
Proof.
  destruct (clear_rows_ok 2 ws) as (ws' & R & F & A).
  exists ws'. split; [exact R |]. split; [exact F |].
  intros r c. rewrite A. apply decide_ext. unfold TABLE4_START_ROW. lia.
Qed.

(** The loop that copies the first data row downwards, after [m] rounds. *)
Lemma style_rows_ok (m : nat) ws :
  exists ws',
    style_rows (Z.of_nat m) ws = (Ok tt, ws') /\ same_frame ws ws' /\
    forall r c,
      cell_at ws' r c
      = if decide (53 <= r <= 52 + Z.of_nat m /\ 1 <= c <= 5)
        then copied (cell_at ws 52 c) (cell_at ws r c)
        else cell_at ws r c.
Proof.
  unfold style_rows, range. induction m as [|m IH].
  - exists ws. split; [reflexivity |]. split; [apply same_frame_refl |].
    intros r c. decide_goal; first [lia | reflexivity].
  - destruct IH as (ws1 & R1 & F1 & A1).
    rewrite seqZ_S, for_app. rewrite (bind_ok _ _ _ _ _ R1).
    cbn [for_]. replace (0 + Z.of_nat m) with (Z.of_nat m) by lia.
    destruct (copy_range_ok
                ("A" +:+ str TABLE4_START_ROW +:+ ":E" +:+ str TABLE4_START_ROW)
                (1 + Z.of_nat m) ws1 1 52 5 52 eq_refl ltac:(lia) ltac:(lia)
                ltac:(right; lia)) as (ws2 & R2 & F2 & A2).
    exists ws2. split; [| split].
    + now rewrite (bind_ok _ _ _ _ _ R2).
    + eapply same_frame_trans; eassumption.
    + intros r c. rewrite A2, !A1.
      decide_goal; try lia; try reflexivity;
        replace (r - (1 + Z.of_nat m)) with 52 by lia; reflexivity.
Qed.

(** "Empty the first two rows of table 4", cell by cell. *)
Lemma empty_first_rows_ok ws :
  exists ws',
    empty_first_rows ws = (Ok tt, ws') /\ same_frame ws ws' /\
    forall r c, cell_at ws' r c = cleared_cell ws r c.
Proof.
  destruct (clear_rows_ok 2 ws) as (ws' & R & F & A).
  exists ws'. split; [exact R |]. split; [exact F |].
  intros r c. rewrite A. apply decide_ext. unfold TABLE4_START_ROW. lia.
Qed.

(** The expansion up to the loop over the entries, cell by cell. *)
Lemma expand_sheet_prepared wb_alt elsewhere defined (df : list Entry) ws :
  5 < len df ->
  exists ws4,
    same_frame ws ws4 /\
    (forall r c, cell_at ws4 r c = prepared_cell (num_to_add_of df) ws r c) /\
    expand_sheet wb_alt elsewhere defined df ws
    = (write_authors df
       >> readd_tables wb_alt elsewhere defined (num_to_add_of df)) ws4.
Proof.
  intros HL. set (n := num_to_add_of df).
  assert (Hn : 0 < n)
    by (unfold n, num_to_add_of, NUMBER_OF_EXISTING_ROWS_IN_TABLE4; lia).
  destruct (empty_first_rows_ok ws) as (ws1 & R1 & F1 & A1).
  destruct (copy_range_ok
              ("A" +:+ str (TABLE4_START_ROW + 5) +:+ ":E"
               +:+ str (TABLE4_START_ROW + 5))
              (n + NUMBER_OF_EXISTING_ROWS_IN_TABLE4 + 1) ws1 1 57 5 57 eq_refl
              ltac:(lia)
              ltac:(unfold NUMBER_OF_EXISTING_ROWS_IN_TABLE4; lia)
              ltac:(right; unfold NUMBER_OF_EXISTING_ROWS_IN_TABLE4; lia))
    as (ws2 & R2 & F2 & A2).
  destruct (insert_rows_inserts (TABLE4_START_ROW + 2) n ws2
              ltac:(unfold TABLE4_START_ROW; lia) Hn)
    as (ws3 & R3 & F3 & A3).
  destruct (style_rows_ok (Z.to_nat n) ws3) as (ws4 & R4 & F4 & A4).
  rewrite Z2Nat.id in R4, A4 by lia.
  exists ws4. split; [| split].
  - repeat (eapply same_frame_trans; [eassumption |]). apply same_frame_refl.
  - intros r c. rewrite A4. unfold prepared_cell.
    assert (H3 : forall r c, cell_at ws3 r c = inserted_cell n ws r c).
    { intros r0 c0. rewrite (A3 r0 c0). unfold inserted_cell.
      assert (H2 : forall r c, cell_at ws2 r c = relocated_cell n ws r c).
      { intros r1 c1. rewrite A2, !A1. unfold relocated_cell, cleared_cell.
        unfold NUMBER_OF_EXISTING_ROWS_IN_TABLE4.
        decide_goal; try lia; try reflexivity;
          replace (r1 - (n + 5 + 1)) with 57 by lia; reflexivity. }
      unfold TABLE4_START_ROW. change (52 + 2) with 54.
      rewrite !H2. reflexivity. }
    rewrite !H3. reflexivity.
  - unfold expand_sheet. fold n.
    rewrite (bind_ok _ _ _ _ _ R1). unfold copy_last_row.
    rewrite (bind_ok _ _ _ _ _ R2).
    unfold add_rows. rewrite (bind_ok _ _ _ _ _ R3), (bind_ok _ _ _ _ _ R4).
    reflexivity.
Qed.

(** The worksheet a run on the vendor template leaves, cell by cell: outside
    the cells of the entries it shows the prepared cells, and every cell has
    the style of the prepared cell. *)
Lemma expanded_cells (out_filename : string) (template : Workbook)
    (sheet : Worksheet) rest (csv : list Entry) (disk : gmap string Workbook) :
  vendor_template template sheet rest -> Forall date_ok csv -> 5 < len csv ->
  exists sheet',
    outcome (__init__ out_filename template csv disk) = Ok tt /\
    worksheets (wb (self_after (__init__ out_filename template csv disk)))
    = sheet' :: rest /\
    (forall r c, ~ (52 <= r < 52 + len csv /\ 1 <= c <= 5) ->
       cell_at sheet' r c = prepared_cell (len csv - 5) sheet r c) /\
    (forall r c,
       style_of (cell_at sheet' r c)
       = style_of (prepared_cell (len csv - 5) sheet r c)).
Proof.
  intros Hv Hdates HL.
  destruct (init_ok out_filename template sheet rest csv disk Hv Hdates)
    as (ws' & Hrun & Hinit).
  exists ws'. rewrite Hinit. cbn [outcome self_after wb worksheets].
  split; [reflexivity |]. split; [reflexivity |].
  destruct (expand_sheet_prepared template (tables_elsewhere template)
              (defined_names template) csv sheet HL)
    as (ws4 & F4 & A4 & Hsplit).
  rewrite Hsplit in Hrun.
  apply bind_ok_inv in Hrun as ([] & ws5 & R5 & R6).
  pose proof (preserves_for _ same_styles_refl same_styles_trans
                (iterrows csv) write_author write_author_same_styles ws4)
    as [_ Hstyle].
  pose proof (write_authors_from_agree_outside csv 0 ltac:(lia) ws4) as Hout.
  unfold write_authors, iterrows in R5, Hstyle. rewrite R5 in Hstyle, Hout.
  cbn [snd] in Hstyle, Hout.
  pose proof (keeps_cells_readd_tables template (tables_elsewhere template)
                (defined_names template) (num_to_add_of csv) ws5) as Hcells.
  rewrite R6 in Hcells. cbn [snd] in Hcells.
  change (num_to_add_of csv) with (len csv - 5) in A4.
  split.
  - intros r c Hnot. rewrite (cell_at_same_cells ws5 ws' r c Hcells).
    rewrite Hout by (unfold TABLE4_START_ROW; lia). apply A4.
  - intros r c. rewrite (cell_at_same_cells ws5 ws' r c Hcells).
    rewrite (proj1 (Hstyle r c)). now rewrite A4.
Qed.

(** X13.  On the vendor template with more than five entries, the rows the
    run adds to table 4 are styled as the code intends: in columns A to E,
    rows 53 .. 52+n (n the number of entries minus five) carry the style of
    the template's first data row 52; the template's data rows 54 to 56 are
    found n rows further down with the style they had; but row 53+n, the last
    inserted one, has the style of a blank cell, because the styling loop
    stops one row short of it. *)
Theorem added_rows_styles
    (out_filename : string) (template : Workbook) (sheet : Worksheet) rest
    (csv : list Entry) (disk : gmap string Workbook) :
  vendor_template template sheet rest -> Forall date_ok csv -> 5 < len csv ->
  exists sheet',
    outcome (__init__ out_filename template csv disk) = Ok tt /\
    worksheets (wb (self_after (__init__ out_filename template csv disk)))
    = sheet' :: rest /\
    forall c, 1 <= c <= 5 ->
      (forall r, 53 <= r <= 52 + (len csv - 5) ->
         style_of (cell_at sheet' r c) = style_of (cell_at sheet 52 c)) /\
      style_of (cell_at sheet' (53 + (len csv - 5)) c) = style_of blank /\
      (forall r, 54 <= r <= 56 ->
         style_of (cell_at sheet' (r + (len csv - 5)) c)
         = style_of (cell_at sheet r c)).
Proof.
  intros Hv Hdates HL.
  destruct (expanded_cells out_filename template sheet rest csv disk Hv Hdates
              ltac:(lia)) as (sheet' & Hout & Hws & _ & Hstyle).
  exists sheet'. split; [exact Hout |]. split; [exact Hws |].
  intros c Hc. split; [| split].
  - intros r Hr. rewrite Hstyle.
    unfold prepared_cell, inserted_cell, relocated_cell, cleared_cell.
    decide_goal; first [lia | reflexivity].
  - rewrite Hstyle.
    unfold prepared_cell, inserted_cell, relocated_cell, cleared_cell.
    decide_goal; first [lia | reflexivity].
  - intros r Hr. rewrite Hstyle.
    unfold prepared_cell, inserted_cell, relocated_cell, cleared_cell.
    replace (r + (len csv - 5) - (len csv - 5)) with r by lia.
    decide_goal; first [lia | reflexivity].
Qed.

Lemma added_rows_styles_witness :
  exists sheet',
    outcome (__init__ "coa.xlsx" sample_template sample_entries ∅) = Ok tt /\
    worksheets (wb (self_after
                  (__init__ "coa.xlsx" sample_template sample_entries ∅)))
    = sheet' :: [] /\
    forall c, 1 <= c <= 5 ->
      (forall r, 53 <= r <= 52 + (len sample_entries - 5) ->
         style_of (cell_at sheet' r c) = style_of (cell_at sample_sheet 52 c)) /\
      style_of (cell_at sheet' (53 + (len sample_entries - 5)) c)
      = style_of blank /\
      (forall r, 54 <= r <= 56 ->
         style_of (cell_at sheet' (r + (len sample_entries - 5)) c)
         = style_of (cell_at sample_sheet r c)).
Proof.
  apply (added_rows_styles "coa.xlsx" sample_template sample_sheet []
           sample_entries ∅).
  - exact sample_is_vendor_template.
  - exact (sample_dates_ok 8).
  - vm_compute. reflexivity.
Defined.

(** X14.  On the vendor template with more than five entries, everything
    from row 57 on is found n rows further down (n the number of entries
    minus five), with one exception: columns A to E of the row that ends up
    at 63 + 2n were overwritten, before the insertion, by a copy of the
    template's row 57. *)
Theorem rows_below_table_move_down
    (out_filename : string) (template : Workbook) (sheet : Worksheet) rest
    (csv : list Entry) (disk : gmap string Workbook) :
  vendor_template template sheet rest -> Forall date_ok csv -> 5 < len csv ->
  exists sheet',
    outcome (__init__ out_filename template csv disk) = Ok tt /\
    worksheets (wb (self_after (__init__ out_filename template csv disk)))
    = sheet' :: rest /\
    forall r c, 57 <= r ->
      cell_at sheet' (r + (len csv - 5)) c
      = if decide (r = len csv + 58 /\ 1 <= c <= 5)
        then copied (cell_at sheet 57 c) (cell_at sheet r c)
        else cell_at sheet r c.
Proof.
  intros Hv Hdates HL.
  destruct (expanded_cells out_filename template sheet rest csv disk Hv Hdates
              ltac:(lia)) as (sheet' & Hout & Hws & Hcell & _).
  exists sheet'. split; [exact Hout |]. split; [exact Hws |].
  intros r c Hr. rewrite Hcell by lia.
  unfold prepared_cell, inserted_cell, relocated_cell, cleared_cell.
  replace (r + (len csv - 5) - (len csv - 5)) with r by lia.
  decide_goal; first [lia | reflexivity].
Qed.

Lemma rows_below_table_move_down_witness :
  exists sheet',
    outcome (__init__ "coa.xlsx" sample_template sample_entries ∅) = Ok tt /\
    worksheets (wb (self_after
                  (__init__ "coa.xlsx" sample_template sample_entries ∅)))
    = sheet' :: [] /\
    forall r c, 57 <= r ->
      cell_at sheet' (r + (len sample_entries - 5)) c
      = if decide (r = len sample_entries + 58 /\ 1 <= c <= 5)
        then copied (cell_at sample_sheet 57 c) (cell_at sample_sheet r c)
        else cell_at sample_sheet r c.
Proof.
  apply (rows_below_table_move_down "coa.xlsx" sample_template sample_sheet []
           sample_entries ∅).
  - exact sample_is_vendor_template.
  - exact (sample_dates_ok 8).
  - vm_compute. reflexivity.
Defined.
